(** * Match-composite service: the orchestration layer over the pools and
      matches services.

    A shallow embedding of [services/user_match_service.py] and
    [resources/user_match.py].  The service functions talk to two upstream
    HTTP services through the [requests] library and draw random numbers
    through [random]; both are modelled by an explicit world that is threaded
    through every call:

    - the replies the upstream services give, in the order the calls are made;
    - the numbers the random generator returns;
    - the order in which the futures of the thread pool complete;
    - the log of every request made.

    Values decoded from JSON keep Python's dynamic typing: a field can hold
    any JSON value and the operations on it raise the exception Python
    raises. *)

From Stdlib Require Import String Ascii ZArith QArith_base List Lia Bool Arith.
From Stdlib Require Import Permutation.
From Stdlib Require Import DecimalString.
Import ListNotations.

Close Scope Q_scope.
Open Scope string_scope.
Open Scope list_scope.

Set Implicit Arguments.
#[local] Set Warnings "-register-all".
#[local] Set Warnings "-automation".
#[local] Set Warnings "-default".

(** ** JSON values, as [response.json()] returns them *)

Inductive json : Type :=
| JNull
| JBool (b : bool)
| JInt (n : Z)
| JFloat (q : Q)
| JStr (s : string)
| JList (l : list json)
| JDict (d : list (string * json)).

(** ** HTTP messages *)

Inductive Method := GET | POST | PATCH | DELETE.

Record Request := {
  method : Method;
  url : string;
  payload : option json;      (* the [json=] argument *)
  timeout : option Z          (* the [timeout=] argument; [None] when absent *)
}.

Record Response := {
  status_code : Z;
  text : string;              (* the raw body *)
  body : option json          (* the decoded body; [None] when it is not JSON *)
}.

(** What a call gets back: a response, no response at all (connection
    refused, timeout, ...), or the refusal of [requests] to send to the URL
    it is given (no scheme or one it has no adapter for, no host), which
    depends on the URL of the service and is here part of the world. *)
Inductive Reply :=
| Answered (r : Response)
| Unreachable
| Invalid.

(** ** Exceptions

    [message] renders the messages the code builds with f-strings around
    [str(e)]: the string of a library or interpreter exception is kept as a
    reference to the exception. *)

Inductive exn : Type :=
| ValueError (msg : message)
| RuntimeError (msg : message)
| PermissionError (msg : message)
| KeyError (key : string)
| TypeError
| AttributeError
| IndexError
| ValidationError                    (* pydantic; a ValueError *)
| HTTPError (r : Response)           (* requests: raised by raise_for_status *)
| TransportError                     (* requests: ConnectionError, Timeout, ... *)
| InvalidURL                         (* requests: MissingSchema, InvalidSchema, InvalidURL;
                                        each a RequestException and a ValueError *)
| JSONDecodeError                    (* requests: a RequestException and a ValueError *)
| HTTPException (status : Z) (detail : message)   (* fastapi *)
with message : Type :=
| Lit (s : string)
| Fmt (prefix : string) (cause : exn).   (* f"{prefix}{str(e)}" *)

(** [isinstance(e, C)] for the classes named in the except clauses. *)

Definition is_ValueError (e : exn) : bool :=
  match e with
  | ValueError _ | ValidationError | JSONDecodeError | InvalidURL => true
  | _ => false
  end.

Definition is_RequestException (e : exn) : bool :=
  match e with
  | HTTPError _ | TransportError | InvalidURL | JSONDecodeError => true
  | _ => false
  end.

Definition is_KeyError (e : exn) : bool :=
  match e with KeyError _ => true | _ => false end.

Definition is_RuntimeError (e : exn) : bool :=
  match e with RuntimeError _ => true | _ => false end.

Definition is_PermissionError (e : exn) : bool :=
  match e with PermissionError _ => true | _ => false end.

(** [e.response] of a RequestException. *)
Definition response_of (e : exn) : option Response :=
  match e with
  | HTTPError r => Some r
  | _ => None
  end.

Inductive Result (A : Type) : Type :=
| Ok (a : A)
| Raise (e : exn).

Arguments Ok {A} a.
Arguments Raise {A} e.

(** ** Python operations on JSON values *)

Definition Qnonzero (q : Q) : bool := negb (Qnum q =? 0)%Z.

(** [bool(v)] *)
Definition truthy (v : json) : bool :=
  match v with
  | JNull => false
  | JBool b => b
  | JInt n => negb (n =? 0)%Z
  | JFloat q => Qnonzero q
  | JStr s => negb (s =? "")
  | JList l => match l with [] => false | _ => true end
  | JDict d => match d with [] => false | _ => true end
  end.

Fixpoint dict_get (d : list (string * json)) (k : string) : option json :=
  match d with
  | [] => None
  | (k', v) :: d' => if k' =? k then Some v else dict_get d' k
  end.

(** [v.get(k, default)] *)
Definition py_get (v : json) (k : string) (default : json) : Result json :=
  match v with
  | JDict d => Ok (match dict_get d k with Some x => x | None => default end)
  | _ => Raise AttributeError
  end.

(** [v[k]] for a string key *)
Definition py_item (v : json) (k : string) : Result json :=
  match v with
  | JDict d => match dict_get d k with Some x => Ok x | None => Raise (KeyError k) end
  | _ => Raise TypeError
  end.

(** The text of a str is held in UTF-8: a character (a code point) is a
    byte and the continuation bytes (10xxxxxx) that follow it. *)
Definition is_continuation (c : ascii) : bool :=
  match c with
  | Ascii _ _ _ _ _ _ b6 b7 => b7 && negb b6
  end.

Definition continues (s : string) : bool :=
  match s with
  | String c _ => is_continuation c
  | EmptyString => false
  end.

(** The characters of a str, in order. *)
Fixpoint chars (s : string) : list string :=
  match s with
  | EmptyString => []
  | String c s' =>
      match chars s' with
      | next :: rest =>
          if continues s' then String c next :: rest
          else String c EmptyString :: next :: rest
      | [] => [String c EmptyString]
      end
  end.

(** [v[0]] *)
Definition py_item0 (v : json) : Result json :=
  match v with
  | JList (x :: _) => Ok x
  | JList [] => Raise IndexError
  | JStr s =>
      match chars s with
      | c :: _ => Ok (JStr c)
      | [] => Raise IndexError
      end
  | JDict _ => Raise (KeyError "0")
  | _ => Raise TypeError
  end.

(** [len(v)] *)
Definition py_len (v : json) : Result Z :=
  match v with
  | JStr s => Ok (Z.of_nat (List.length (chars s)))
  | JList l => Ok (Z.of_nat (List.length l))
  | JDict d => Ok (Z.of_nat (List.length d))
  | _ => Raise TypeError
  end.

(** The items a [for] loop over [v] visits. *)
Definition py_iter (v : json) : Result (list json) :=
  match v with
  | JList l => Ok l
  | JDict d => Ok (map (fun kv => JStr (fst kv)) d)
  | JStr s => Ok (map JStr (chars s))
  | _ => Raise TypeError
  end.

(** [v < m] for an int [m] *)
Definition py_lt (v : json) (m : Z) : Result bool :=
  match v with
  | JInt n => Ok (n <? m)%Z
  | JBool b => Ok ((if b then 1 else 0) <? m)%Z
  | JFloat q => Ok (Qnum q <? m * Zpos (Qden q))%Z
  | _ => Raise TypeError
  end.

(** [v != s] for a str [s] *)
Definition py_ne_str (v : json) (s : string) : bool :=
  match v with
  | JStr s' => negb (s' =? s)
  | _ => true
  end.

(** [type(v)] as an f-string prints it. *)
Definition py_type (v : json) : string :=
  match v with
  | JNull => "<class 'NoneType'>"
  | JBool _ => "<class 'bool'>"
  | JInt _ => "<class 'int'>"
  | JFloat _ => "<class 'float'>"
  | JStr _ => "<class 'str'>"
  | JList _ => "<class 'list'>"
  | JDict _ => "<class 'dict'>"
  end.

Definition is_dict (v : json) : bool :=
  match v with JDict _ => true | _ => false end.

(** [str(n)] for a length *)
Definition str_of_nat (n : nat) : string :=
  NilZero.string_of_uint (Nat.to_uint n).

(** ** The world and the monad of the service code *)

Record World := {
  replies : list Reply;     (* what the upstream services answer, call by call *)
  draws : list nat;         (* what the random generator returns, draw by draw *)
  finished : list nat;      (* which pending future completes next *)
  sent : list Request       (* every request made, oldest first *)
}.

Definition M (A : Type) : Type := World -> Result A * World.

Definition ret {A} (a : A) : M A := fun w => (Ok a, w).

Definition raise {A} (e : exn) : M A := fun w => (Raise e, w).

Definition bind {A B} (m : M A) (k : A -> M B) : M B :=
  fun w =>
    match m w with
    | (Ok a, w') => k a w'
    | (Raise e, w') => (Raise e, w')
    end.

Definition lift {A} (r : Result A) : M A := fun w => (r, w).

(** [try: body  except ...: handler]; the handler answers [None] when no
    except clause matches and the exception goes on. *)
Definition try_except {A} (body : M A) (handler : exn -> option (M A)) : M A :=
  fun w =>
    match body w with
    | (Ok a, w') => (Ok a, w')
    | (Raise e, w') =>
        match handler e with
        | Some h => h w'
        | None => (Raise e, w')
        end
    end.

Declare Scope monad_scope.
Delimit Scope monad_scope with monad.
Notation "x <- m ;; k" := (bind m (fun x => k))
  (at level 61, m at next level, right associativity) : monad_scope.
Notation "m ;;; k" := (bind m (fun _ => k))
  (at level 61, right associativity) : monad_scope.
Open Scope monad_scope.

(** *** requests *)

(** Default timeout for all HTTP requests (in seconds) *)
Definition REQUEST_TIMEOUT : Z := 5.

(** [requests.request(method, url, json=payload, timeout=timeout)]: the
    request is logged and answered by the next reply of the world; a world
    with no reply left does not answer.  A request whose URL is refused is
    logged as well, although nothing is sent. *)
Definition requests_request (rq : Request) : M Response :=
  fun w =>
    let w' r := {| replies := r; draws := draws w; finished := finished w;
                   sent := sent w ++ [rq] |} in
    match replies w with
    | Answered r :: rest => (Ok r, w' rest)
    | Unreachable :: rest => (Raise TransportError, w' rest)
    | Invalid :: rest => (Raise InvalidURL, w' rest)
    | [] => (Raise TransportError, w' [])
    end.

Definition requests_get (u : string) (t : option Z) : M Response :=
  requests_request {| method := GET; url := u; payload := None; timeout := t |}.

Definition requests_post (u : string) (p : json) (t : option Z) : M Response :=
  requests_request {| method := POST; url := u; payload := Some p; timeout := t |}.

Definition requests_patch (u : string) (p : json) (t : option Z) : M Response :=
  requests_request {| method := PATCH; url := u; payload := Some p; timeout := t |}.

Definition requests_delete (u : string) (t : option Z) : M Response :=
  requests_request {| method := DELETE; url := u; payload := None; timeout := t |}.

(** [Response.raise_for_status]: HTTPError for the statuses 400 to 599. *)
Definition is_error_status (s : Z) : bool := ((400 <=? s) && (s <? 600))%Z.

Definition raise_for_status (r : Response) : M unit :=
  if is_error_status (status_code r) then raise (HTTPError r) else ret tt.

(** [Response.ok] and [Response.__bool__]: a response is true when
    raise_for_status does not raise. *)
Definition ok (r : Response) : bool := negb (is_error_status (status_code r)).

Definition Response_bool (r : Response) : bool := ok r.

(** [Response.json] *)
Definition json_of (r : Response) : M json :=
  match body r with
  | Some v => ret v
  | None => raise JSONDecodeError
  end.

(** [hasattr(e, "response") and e.response and e.response.status_code == s]:
    [e.response] is None or a Response, and [and] tests its truth value. *)
Definition response_has_status (e : exn) (s : Z) : bool :=
  match response_of e with
  | Some r => Response_bool r && (status_code r =? s)%Z
  | None => false
  end.

(** *** random *)

(** [_randbelow(n)] for [n > 0]. *)
Definition randbelow (n : nat) : M nat :=
  fun w =>
    let d := hd 0 (draws w) in
    (Ok (d mod n),
     {| replies := replies w; draws := tl (draws w); finished := finished w;
        sent := sent w |}).

(** [random.choice(seq)] *)
Definition random_choice {A} (seq : list A) : M A :=
  match seq with
  | [] => raise IndexError
  | x :: _ => j <- randbelow (List.length seq) ;; ret (nth j seq x)
  end.

(** [l[j] = x] *)
Fixpoint list_set {A} (j : nat) (x : A) (l : list A) : list A :=
  match l, j with
  | [], _ => []
  | _ :: t, O => x :: t
  | h :: t, S j' => h :: list_set j' x t
  end.

(** The selection loop of [random.sample] over the copied population,

      pool = list(population)
      for i in range(k):
          j = randbelow(n - i)
          result[i] = pool[j]
          pool[j] = pool[n - i - 1]

    with [m] standing for [n - i]. *)
Fixpoint sample_loop {A} (pool : list A) (m k : nat) : M (list A) :=
  match k with
  | O => ret []
  | S k' =>
      j <- randbelow m ;;
      match nth_error pool j, nth_error pool (m - 1) with
      | Some x, Some y =>
          result <- sample_loop (list_set j y pool) (m - 1) k' ;;
          ret (x :: result)
      | _, _ => raise IndexError
      end
  end.

(** [4 ** _ceil(_log(m, 4))] for [m >= 1]: the least power of 4 that is not
    below [m], looked for from [p] on. *)
Fixpoint power_of_4 (fuel p m : nat) : nat :=
  match fuel with
  | O => p
  | S fuel' => if (m <=? p)%nat then p else power_of_4 fuel' (4 * p) m
  end.

(** The size up to which the population is copied,

      setsize = 21
      if k > 5:
          setsize += 4 ** _ceil(_log(k * 3, 4))

    ([k * 3] is no power of 4, so the rounding of the logarithm does not
    matter.) *)
Definition setsize (k : nat) : nat :=
  if (5 <? k)%nat then 21 + power_of_4 (3 * k) 1 (3 * k) else 21.

(** [j in selected] *)
Definition selected_in (j : nat) (selected : list nat) : bool :=
  existsb (Nat.eqb j) selected.

(** The least position below [n] that is not selected. *)
Definition first_unselected (n : nat) (selected : list nat) : nat :=
  hd 0 (filter (fun j => negb (selected_in j selected)) (seq 0 n)).

(** The draws of

      j = randbelow(n)
      while j in selected:
          j = randbelow(n)

    over the draws [ds]: the first draw that is not selected, and the draws
    after it.  Past the end of the draws [randbelow] gives 0, which is
    accepted when it is not selected; when it is selected the loop would
    never leave, and the least position not selected stands for the draw a
    generator gives in the end. *)
Fixpoint redraw (n : nat) (selected ds : list nat) : nat * list nat :=
  match ds with
  | [] => (first_unselected n selected, [])
  | d :: rest =>
      if selected_in (d mod n) selected then redraw n selected rest else (d mod n, rest)
  end.

Definition draw_unselected (n : nat) (selected : list nat) : M nat :=
  fun w =>
    (Ok (fst (redraw n selected (draws w))),
     {| replies := replies w; draws := snd (redraw n selected (draws w));
        finished := finished w; sent := sent w |}).

(** The selection loop of [random.sample] over the population itself,

      selected = set()
      for i in range(k):
          j = randbelow(n)
          while j in selected:
              j = randbelow(n)
          selected_add(j)
          result[i] = population[j] *)
Fixpoint reject_loop {A} (population : list A) (n : nat) (selected : list nat) (k : nat)
  : M (list A) :=
  match k with
  | O => ret []
  | S k' =>
      j <- draw_unselected n selected ;;
      match nth_error population j with
      | Some x =>
          result <- reject_loop population n (j :: selected) k' ;;
          ret (x :: result)
      | None => raise IndexError
      end
  end.

(** [random.sample(population, k)] *)
Definition random_sample {A} (population : list A) (k : Z) : M (list A) :=
  let n := List.length population in
  if ((0 <=? k) && (k <=? Z.of_nat n))%Z
  then if (n <=? setsize (Z.to_nat k))%nat
       then sample_loop population n (Z.to_nat k)
       else reject_loop population n [] (Z.to_nat k)
  else raise (ValueError (Lit "Sample larger than population or is negative")).

(** *** concurrent.futures *)

(** A submitted call runs to its end; its result or exception is kept in the
    future. *)
Definition submit {A} (call : M A) : M (Result A) :=
  fun w => let (r, w') := call w in (Ok r, w').

Fixpoint submit_all {A} (calls : list (M A)) : M (list (Result A)) :=
  match calls with
  | [] => ret []
  | c :: rest =>
      f <- submit c ;;
      fs <- submit_all rest ;;
      ret (f :: fs)
  end.

Definition remove_at {A} (i : nat) (l : list A) : list A :=
  firstn i l ++ skipn (S i) l.

(** The order in which [n] pending futures are yielded: each entry of
    [order] names the pending future that completes next. *)
Fixpoint completion {A} (order : list nat) (pending : list A) (n : nat) : list A :=
  match n, pending with
  | S n', x :: _ =>
      let i := hd 0 order mod List.length pending in
      nth i pending x :: completion (tl order) (remove_at i pending) n'
  | _, _ => []
  end.

(** [as_completed(futures)] *)
Definition as_completed {A} (futures : list A) : M (list A) :=
  fun w =>
    (Ok (completion (finished w) futures (List.length futures)),
     {| replies := replies w; draws := draws w;
        finished := skipn (List.length futures) (finished w);
        sent := sent w |}).

(** ** Identifiers and results *)

(** A UUID, by its canonical text. *)
Inductive UUID := uuid (canonical : string).

(** [str(user_id)] *)
Definition str (u : UUID) : string := let (s) := u in s.




(** The dict [get_user_pool_from_service] and
    [update_user_pool_coordinates_service] return. *)
Module UserPool.
Record t := {
  pool_id : json;
  pool_name : json;
  location : json;
  member_count : json;
  joined_at : json;
  user_id : json
}.
End UserPool.

(** The dict [add_user_to_pool_service] returns. *)
Module Joined.
Record t := {
  user_id : UUID;
  pool_id : json;
  location : string;
  member : json
}.
End Joined.

(** The dict [generate_matches_for_user_service] returns. *)
Module Generated.
Record t (Match : Type) := {
  message : string;
  pool_id : json;
  matches_created : Z;
  matches : list Match
}.
Arguments message {Match} _.
Arguments pool_id {Match} _.
Arguments matches_created {Match} _.
Arguments matches {Match} _.
End Generated.

(** The dicts the three list resources return. *)
Module UserMatches.
Record t := {
  user_id : UUID;
  matches_count : Z;
  matches : json
}.
End UserMatches.

Module UserPoolMembers.
Record t := {
  user_id : UUID;
  members_count : Z;
  members : json
}.
End UserPoolMembers.

Module UserDecisions.
Record t := {
  user_id : UUID;
  decisions_count : Z;
  decisions : json
}.
End UserDecisions.

Fixpoint filter_result {A} (f : A -> Result bool) (l : list A) : Result (list A) :=
  match l with
  | [] => Ok []
  | x :: rest =>
      match f x with
      | Raise e => Raise e
      | Ok b =>
          match filter_result f rest with
          | Raise e => Raise e
          | Ok rest' => Ok (if b then x :: rest' else rest')
          end
      end
  end.

Fixpoint map_result {A B} (f : A -> Result B) (l : list A) : Result (list B) :=
  match l with
  | [] => Ok []
  | x :: rest =>
      match f x with
      | Raise e => Raise e
      | Ok y =>
          match map_result f rest with
          | Raise e => Raise e
          | Ok ys => Ok (y :: ys)
          end
      end
  end.

Definition communication_error {A} (e : exn) : M A :=
  raise (RuntimeError (Fmt "Service communication error: " e)).

(** ** services/user_match_service.py *)

Section Service.

(** [str(v)] of a JSON value that is not a str, as the interpreter prints
    it. *)
Variable repr : json -> string.

(** The instances of [models.match.MatchGet], and the constructor called
    on the keyword arguments [fields]: [None] when they do not validate. *)
Variable Match : Type.
Variable MatchGet : list (string * json) -> option Match.

(** [str(v)], also what an f-string prints for [v]. *)
Definition py_str (v : json) : string :=
  match v with
  | JStr s => s
  | _ => repr v
  end.

Definition get_user_pool_from_service (user_id : UUID) (pools_service_url : string)
  : M UserPool.t :=
  try_except
    ((* Step 1: Get the user's pool membership *)
     members_response <-
       requests_get (pools_service_url ++ "/pools/members?user_id=" ++ str user_id)
                    (Some REQUEST_TIMEOUT) ;;
     raise_for_status members_response ;;;
     members <- json_of members_response ;;
     no_member <-
       (if negb (truthy members) then ret true
        else n <- lift (py_len members) ;; ret (n =? 0)%Z) ;;
     if no_member : bool
     then raise (ValueError (Lit "User is not a member of any pool"))
     else
       user_member <- lift (py_item0 members) ;;
       pool_id <- lift (py_get user_member "pool_id" JNull) ;;
       (* Step 2: Fetch pool details *)
       pool_response <-
         requests_get (pools_service_url ++ "/pools/" ++ py_str pool_id)
                      (Some REQUEST_TIMEOUT) ;;
       raise_for_status pool_response ;;;
       user_pool <- json_of pool_response ;;
       (* Step 3: Return combined pool and member information *)
       id <- lift (py_item user_pool "id") ;;
       name <- lift (py_item user_pool "name") ;;
       location <- lift (py_get user_pool "location" JNull) ;;
       member_count <- lift (py_get user_pool "member_count" JNull) ;;
       joined_at <- lift (py_item user_member "joined_at") ;;
       member_user_id <- lift (py_item user_member "user_id") ;;
       ret {| UserPool.pool_id := id;
              UserPool.pool_name := name;
              UserPool.location := location;
              UserPool.member_count := member_count;
              UserPool.joined_at := joined_at;
              UserPool.user_id := member_user_id |})
    (fun e =>
       if is_ValueError e then Some (raise e)
       else if is_RequestException e then Some (communication_error e)
       else None).

(** The test of the comprehension that filters out full pools:
    [p.get("member_count", 0) < max_pool_size]. *)
Definition not_full (max_pool_size : Z) (p : json) : Result bool :=
  match py_get p "member_count" (JInt 0) with
  | Ok c => py_lt c max_pool_size
  | Raise e => Raise e
  end.

Definition pool_name_for (location : string) : string := "Pool for " ++ location.

Definition member_payload (user_id : UUID) (coord_x coord_y : option Q)
  : list (string * json) :=
  [("user_id", JStr (str user_id))]
    ++ match coord_x with Some x => [("coord_x", JFloat x)] | None => [] end
    ++ match coord_y with Some y => [("coord_y", JFloat y)] | None => [] end.

(** The block that creates a pool for the location: the pool as the pools
    service answers it. *)
Definition create_pool (location pools_service_url : string) : M json :=
  pool_response <-
    requests_post (pools_service_url ++ "/pools/")
      (JDict [("name", JStr (pool_name_for location));
              ("location", JStr location)])
      (Some REQUEST_TIMEOUT) ;;
  raise_for_status pool_response ;;;
  pool <- json_of pool_response ;;
  (* Ensure pool is a dict *)
  if is_dict pool then ret pool
  else raise (RuntimeError (Lit ("Unexpected pool response format: " ++ py_type pool))).

(** The block that adds the user to the selected or created pool. *)
Definition join_pool (user_id : UUID) (location : string) (coord_x coord_y : option Q)
    (pools_service_url : string) (pool : json) : M Joined.t :=
  id <- lift (py_item pool "id") ;;
  member_response <-
    requests_post (pools_service_url ++ "/pools/" ++ py_str id ++ "/members")
      (JDict (member_payload user_id coord_x coord_y))
      (Some REQUEST_TIMEOUT) ;;
  raise_for_status member_response ;;;
  member <- json_of member_response ;;
  id' <- lift (py_item pool "id") ;;
  ret {| Joined.user_id := user_id;
         Joined.pool_id := id';
         Joined.location := location;
         Joined.member := member |}.

Definition add_user_to_pool_service (user_id : UUID) (location : string)
    (coord_x coord_y : option Q) (pools_service_url : string) (max_pool_size : Z)
  : M Joined.t :=
  try_except
    ((* Find pools at the specified location that are not full *)
     pools_response <-
       requests_get (pools_service_url ++ "/pools/?location=" ++ location)
                    (Some REQUEST_TIMEOUT) ;;
     raise_for_status pools_response ;;;
     pools <- json_of pools_response ;;
     match pools with
     | JList listed =>
         (* Filter out full pools *)
         pools <- lift (filter_result (not_full max_pool_size) listed) ;;
         pool <-
           match pools with
           | [] =>
               (* No pools exist for this location, create a new one *)
               create_pool location pools_service_url
           | _ :: _ =>
               (* Select a random pool from the available pools at this location *)
               random_choice pools
           end ;;
         (* Add the user to the selected/created pool *)
         join_pool user_id location coord_x coord_y pools_service_url pool
     | _ =>
         raise (RuntimeError
                  (Lit ("Unexpected response format from pools service: "
                          ++ py_type pools)))
     end)
    (fun e =>
       if is_KeyError e
       then Some (raise (RuntimeError (Fmt "Missing expected field in response: " e)))
       else if is_RequestException e then Some (communication_error e)
       else None).

Definition get_user_matches_from_service (user_id : UUID) (matches_service_url : string)
  : M json :=
  try_except
    (matches_response <-
       requests_get (matches_service_url ++ "/matches/?user_id=" ++ str user_id)
                    (Some REQUEST_TIMEOUT) ;;
     raise_for_status matches_response ;;;
     json_of matches_response)
    (fun e =>
       if is_RequestException e
       then Some (if response_has_status e 404
                  then ret (JList [])   (* No matches found *)
                  else communication_error e)
       else None).

(** The helper of [generate_matches_for_user_service]; Python's [None] is
    [JNull]. *)
Definition create_match (matches_service_url : string) (pool_id : json)
    (user_id : UUID) (member : json) : M json :=
  try_except
    (peer <- lift (py_get member "user_id" JNull) ;;
     match_response <-
       requests_post (matches_service_url ++ "/matches/")
         (JDict [("pool_id", JStr (py_str pool_id));
                 ("user1_id", JStr (str user_id));
                 ("user2_id", JStr (py_str peer))])
         (Some REQUEST_TIMEOUT) ;;
     raise_for_status match_response ;;;
     json_of match_response)
    (fun e =>
       (* Skip if match already exists or other error (log but don't fail) *)
       if is_RequestException e then Some (ret JNull) else None).

(** The loop over the completed futures:
    [match = future.result(); if match: created_matches.append(match)]. *)
Fixpoint collect_created (completed : list (Result json)) (created_matches : list json)
  : M (list json) :=
  match completed with
  | [] => ret created_matches
  | future :: rest =>
      match_ <- lift future ;;
      collect_created rest
        (if truthy match_ then created_matches ++ [match_] else created_matches)
  end.

(** One round of the validation loop:
    a list is replaced by its first element, then [MatchGet] is called on
    the fields. *)
Definition validate_match (match_ : json) : Result Match :=
  let match_ :=
    match match_ with
    | JList (first :: _) => first
    | JList [] => JDict []
    | _ => match_
    end in
  match match_ with
  | JDict fields =>
      match MatchGet fields with
      | Some m => Ok m
      | None => Raise ValidationError
      end
  | _ => Raise TypeError
  end.

(** The [with ThreadPoolExecutor(max_workers=5)] block: one call of
    [create_match] per selected member, the results gathered as the
    futures complete. *)
Definition create_matches (matches_service_url : string) (pool_id : json)
    (user_id : UUID) (selected_members : list json) : M (list json) :=
  futures <-
    submit_all
      (map (create_match matches_service_url pool_id user_id) selected_members) ;;
  completed <- as_completed futures ;;
  collect_created completed [].

(** The test of the comprehension that filters out the current user. *)
Definition is_other (user_id : UUID) (member : json) : Result bool :=
  match py_get member "user_id" JNull with
  | Ok v => Ok (py_ne_str v (str user_id))
  | Raise e => Raise e
  end.

(** The part of [generate_matches_for_user_service] that follows the
    filter: the answer for the pool [pool_id] and the other members of it. *)
Definition match_with (user_id : UUID) (matches_service_url : string) (pool_id : json)
    (max_matches : Z) (other_members : list json) : M (Generated.t Match) :=
  match other_members with
  | [] =>
      ret {| Generated.message := "No other users in the pool to match with";
             Generated.pool_id := pool_id;
             Generated.matches_created := 0;
             Generated.matches := [] |}
  | _ :: _ =>
      (* Select up to max_matches random other members *)
      selected_members <-
        random_sample other_members
          (Z.min max_matches (Z.of_nat (List.length other_members))) ;;
      (* Create matches in parallel *)
      created_matches <-
        create_matches matches_service_url pool_id user_id selected_members ;;
      validated_matches <- lift (map_result validate_match created_matches) ;;
      ret {| Generated.message :=
               "Generated " ++ str_of_nat (List.length validated_matches)
                 ++ " matches for user " ++ str user_id;
             Generated.pool_id := pool_id;
             Generated.matches_created := Z.of_nat (List.length validated_matches);
             Generated.matches := validated_matches |}
  end.

(** Steps 1 and 2 of [generate_matches_for_user_service] and the filter: the
    pool of the user and its other members. *)
Definition pool_and_others (user_id : UUID) (pools_service_url : string)
  : M (json * list json) :=
  (* Step 1: Find which pool the user is in *)
  user_pool_data <- get_user_pool_from_service user_id pools_service_url ;;
  let pool_id := UserPool.pool_id user_pool_data in
  if negb (truthy pool_id)
  then raise (ValueError
                (Lit "User is not a member of any pool. Add user to a pool first."))
  else
    (* Step 2: Get all members of that pool *)
    members_response <-
      requests_get (pools_service_url ++ "/pools/" ++ py_str pool_id ++ "/members")
                   None ;;
    raise_for_status members_response ;;;
    pool_members <- json_of members_response ;;
    (* Filter out the current user *)
    members <- lift (py_iter pool_members) ;;
    other_members <- lift (filter_result (is_other user_id) members) ;;
    ret (pool_id, other_members).

Definition generate_matches_for_user_service (user_id : UUID)
    (matches_service_url pools_service_url : string) (max_matches : Z)
  : M (Generated.t Match) :=
  try_except
    (resolved <- pool_and_others user_id pools_service_url ;;
     match_with user_id matches_service_url (fst resolved) max_matches (snd resolved))
    (fun e =>
       if is_ValueError e then Some (raise e)
       else if is_RequestException e then Some (communication_error e)
       else None).

Definition get_pool_members_from_service (user_id : UUID) (pools_service_url : string)
  : M json :=
  try_except
    (user_pool_data <- get_user_pool_from_service user_id pools_service_url ;;
     let pool_id := UserPool.pool_id user_pool_data in
     if negb (truthy pool_id)
     then raise (ValueError (Lit "User is not a member of any pool"))
     else
       members_response <-
         requests_get (pools_service_url ++ "/pools/" ++ py_str pool_id ++ "/members")
                      (Some REQUEST_TIMEOUT) ;;
       raise_for_status members_response ;;;
       json_of members_response)
    (fun e =>
       if is_ValueError e then Some (raise e)
       else if is_RequestException e then Some (communication_error e)
       else None).

(** One round of the loop of [get_user_decisions_from_service]: the
    decisions it appends. *)
Definition fetch_decision (user_id : UUID) (base_url : string) (match_ : json)
  : M (list json) :=
  match_id <- lift (py_get match_ "match_id" JNull) ;;
  if truthy match_id
  then
    try_except
      (decision_response <-
         requests_get (base_url ++ "/matches/" ++ py_str match_id
                         ++ "/decisions/" ++ str user_id)
                      (Some REQUEST_TIMEOUT) ;;
       if (status_code decision_response =? 200)%Z
       then decision <- json_of decision_response ;; ret [decision]
       else ret [])
      (fun e =>
         (* Decision doesn't exist for this match yet *)
         if is_RequestException e then Some (ret []) else None)
  else ret [].

Fixpoint fetch_decisions (user_id : UUID) (base_url : string) (matches : list json)
    (all_decisions : list json) : M (list json) :=
  match matches with
  | [] => ret all_decisions
  | match_ :: rest =>
      found <- fetch_decision user_id base_url match_ ;;
      fetch_decisions user_id base_url rest (all_decisions ++ found)
  end.

Definition get_user_decisions_from_service (user_id : UUID) (base_url : string)
  : M json :=
  try_except
    (matches_response <-
       requests_get (base_url ++ "/matches/?user_id=" ++ str user_id)
                    (Some REQUEST_TIMEOUT) ;;
     raise_for_status matches_response ;;;
     matches <- json_of matches_response ;;
     matches <- lift (py_iter matches) ;;
     all_decisions <- fetch_decisions user_id base_url matches [] ;;
     ret (JList all_decisions))
    (fun e =>
       if is_RequestException e
       then Some (if response_has_status e 404
                  then ret (JList [])   (* No decisions found *)
                  else communication_error e)
       else None).

Definition submit_decision_for_user_match (user_id match_id : UUID) (decision : string)
    (matches_service_url : string) : M json :=
  try_except
    (decision_response <-
       requests_post (matches_service_url ++ "/matches/" ++ str match_id ++ "/decisions")
         (JDict [("match_id", JStr (str match_id));
                 ("user_id", JStr (str user_id));
                 ("decision", JStr decision)])
         (Some REQUEST_TIMEOUT) ;;
     raise_for_status decision_response ;;;
     json_of decision_response)
    (fun e =>
       if is_RequestException e
       then Some
              match response_of e with
              | Some response =>
                  if Response_bool response
                  then
                    if (status_code response =? 400)%Z
                    then raise (ValueError
                                  (Lit ("Invalid decision data: " ++ text response)))
                    else if (status_code response =? 403)%Z
                    then raise (PermissionError
                                  (Lit "User is not a participant in this match"))
                    else if (status_code response =? 404)%Z
                    then raise (ValueError (Lit "Match not found"))
                    else communication_error e
                  else communication_error e
              | None => communication_error e
              end
       else None).

Definition delete_user_from_pool_service (user_id : UUID) (pools_service_url : string)
  : M json :=
  try_except
    (delete_response <-
       requests_delete (pools_service_url ++ "/pools/members/" ++ str user_id)
                       (Some REQUEST_TIMEOUT) ;;
     raise_for_status delete_response ;;;
     json_of delete_response)
    (fun e =>
       if is_RequestException e
       then Some (if response_has_status e 404
                  then raise (ValueError (Lit "User is not a member of any pool"))
                  else communication_error e)
       else None).

Definition coordinates_payload (coord_x coord_y : option Q) : list (string * json) :=
  match coord_x with Some x => [("coord_x", JFloat x)] | None => [] end
    ++ match coord_y with Some y => [("coord_y", JFloat y)] | None => [] end.

Definition update_user_pool_coordinates_service (user_id : UUID)
    (coord_x coord_y : option Q) (pools_service_url : string) : M UserPool.t :=
  try_except
    (user_pool_data <- get_user_pool_from_service user_id pools_service_url ;;
     let pool_id := UserPool.pool_id user_pool_data in
     if negb (truthy pool_id)
     then raise (ValueError (Lit "User is not a member of any pool"))
     else
       update_response <-
         requests_patch (pools_service_url ++ "/pools/" ++ py_str pool_id
                           ++ "/members/" ++ str user_id)
           (JDict (coordinates_payload coord_x coord_y))
           (Some REQUEST_TIMEOUT) ;;
       raise_for_status update_response ;;;
       member <- json_of update_response ;;
       joined_at <- lift (py_get member "joined_at" JNull) ;;
       ret {| UserPool.pool_id := pool_id;
              UserPool.pool_name := UserPool.pool_name user_pool_data;
              UserPool.location := UserPool.location user_pool_data;
              UserPool.member_count := UserPool.member_count user_pool_data;
              UserPool.joined_at := joined_at;
              UserPool.user_id := JStr (str user_id) |})
    (fun e =>
       if is_ValueError e then Some (raise e)
       else if is_RequestException e
       then Some (if response_has_status e 404
                  then raise (ValueError (Lit "User is not a member of any pool"))
                  else communication_error e)
       else None).

(** ** resources/user_match.py

    The bodies of the route handlers; FastAPI's own validation of paths,
    payloads and response models is outside of them. *)

(** Service URLs, read from the environment. *)
Variable POOLS_SERVICE_URL : string.
Variable MATCHES_SERVICE_URL : string.

(** [detail=str(e)] *)
Definition str_exn (e : exn) : message := Fmt "" e.

Definition get_user_pool (user_id : UUID) : M UserPool.t :=
  try_except
    (get_user_pool_from_service user_id POOLS_SERVICE_URL)
    (fun e =>
       if is_ValueError e then Some (raise (HTTPException 404 (str_exn e)))
       else if is_RuntimeError e then Some (raise (HTTPException 502 (str_exn e)))
       else Some (raise (HTTPException 500 (Fmt "Failed to retrieve user pool: " e)))).


Definition generate_matches_for_user (user_id : UUID) : M (Generated.t Match) :=
  try_except
    (generate_matches_for_user_service user_id MATCHES_SERVICE_URL POOLS_SERVICE_URL 10)
    (fun e =>
       if is_ValueError e then Some (raise (HTTPException 404 (str_exn e)))
       else if is_RuntimeError e then Some (raise (HTTPException 502 (str_exn e)))
       else Some (raise (HTTPException 500 (Fmt "Failed to generate matches: " e)))).

Definition get_user_matches (user_id : UUID) : M UserMatches.t :=
  try_except
    (matches <- get_user_matches_from_service user_id MATCHES_SERVICE_URL ;;
     n <- lift (py_len matches) ;;
     ret {| UserMatches.user_id := user_id;
            UserMatches.matches_count := n;
            UserMatches.matches := matches |})
    (fun e =>
       if is_RuntimeError e then Some (raise (HTTPException 502 (str_exn e)))
       else Some (raise (HTTPException 500 (Fmt "Failed to retrieve user matches: " e)))).

Definition get_user_pool_members (user_id : UUID) : M UserPoolMembers.t :=
  try_except
    (members <- get_pool_members_from_service user_id POOLS_SERVICE_URL ;;
     n <- lift (py_len members) ;;
     ret {| UserPoolMembers.user_id := user_id;
            UserPoolMembers.members_count := n;
            UserPoolMembers.members := members |})
    (fun e =>
       if is_ValueError e then Some (raise (HTTPException 404 (str_exn e)))
       else if is_RuntimeError e then Some (raise (HTTPException 502 (str_exn e)))
       else Some (raise (HTTPException 500 (Fmt "Failed to retrieve pool members: " e)))).

Definition get_user_decisions (user_id : UUID) : M UserDecisions.t :=
  try_except
    (decisions <- get_user_decisions_from_service user_id MATCHES_SERVICE_URL ;;
     n <- lift (py_len decisions) ;;
     ret {| UserDecisions.user_id := user_id;
            UserDecisions.decisions_count := n;
            UserDecisions.decisions := decisions |})
    (fun e =>
       if is_RuntimeError e then Some (raise (HTTPException 502 (str_exn e)))
       else Some (raise (HTTPException 500 (Fmt "Failed to retrieve user decisions: " e)))).

Definition remove_user_from_pool (user_id : UUID) : M json :=
  try_except
    (delete_user_from_pool_service user_id POOLS_SERVICE_URL)
    (fun e =>
       if is_ValueError e then Some (raise (HTTPException 404 (str_exn e)))
       else if is_RuntimeError e then Some (raise (HTTPException 502 (str_exn e)))
       else Some (raise (HTTPException 500 (Fmt "Failed to remove user from pool: " e)))).

Definition update_user_pool_coordinates (user_id : UUID) (coord_x coord_y : option Q)
  : M UserPool.t :=
  try_except
    (update_user_pool_coordinates_service user_id coord_x coord_y POOLS_SERVICE_URL)
    (fun e =>
       if is_ValueError e then Some (raise (HTTPException 404 (str_exn e)))
       else if is_RuntimeError e then Some (raise (HTTPException 502 (str_exn e)))
       else Some (raise (HTTPException 500 (Fmt "Failed to update user coordinates: " e)))).

Definition submit_user_match_decision (user_id match_id : UUID) (decision : string)
  : M json :=
  try_except
    (submit_decision_for_user_match user_id match_id decision MATCHES_SERVICE_URL)
    (fun e =>
       if is_PermissionError e then Some (raise (HTTPException 403 (str_exn e)))
       else if is_ValueError e then Some (raise (HTTPException 400 (str_exn e)))
       else if is_RuntimeError e then Some (raise (HTTPException 502 (str_exn e)))
       else Some (raise (HTTPException 500 (Fmt "Failed to submit decision: " e)))).

End Service.

(** ** Sample runs *)

Definition world (rs : list Reply) (ds order : list nat) : World :=
  {| replies := rs; draws := ds; finished := order; sent := [] |}.

Definition no_repr (v : json) : string := "?".

(** A world whose next reply is [r]. *)
Definition answering (r : Response) (rest : list Reply) (ds order : list nat)
    (log : list Request) : World :=
  {| replies := Answered r :: rest; draws := ds; finished := order; sent := log |}.

(** A reply with status 404. *)
Definition not_found (txt : string) (b : option json) : Response :=
  {| status_code := 404; text := txt; body := b |}.

(** A reply with status [s]. *)
Definition status_reply (s : Z) (txt : string) (b : option json) : Response :=
  {| status_code := s; text := txt; body := b |}.

(** Sample data: user [u1] is a member of pool [p1] with [u2] and [u3]. *)
Definition u1 : UUID := uuid "00000000-0000-0000-0000-000000000001".
Definition u2 : UUID := uuid "00000000-0000-0000-0000-000000000002".
Definition u3 : UUID := uuid "00000000-0000-0000-0000-000000000003".
Definition m1 : UUID := uuid "00000000-0000-0000-0000-0000000000a1".


(** A str of one character that takes three bytes in UTF-8: U+20AC. *)
Definition euro : string :=
  String (ascii_of_nat 226) (String (ascii_of_nat 130) (String (ascii_of_nat 172) "")).

Definition membership_of (u : UUID) : list (string * json) :=
  [("pool_id", JStr "p1"); ("user_id", JStr (str u));
   ("joined_at", JStr "2025-01-01T00:00:00")].

Definition pool_p1 : list (string * json) :=
  [("id", JStr "p1"); ("name", JStr "Pool for NYC"); ("location", JStr "NYC");
   ("member_count", JInt 3)].


Definition ok_reply (v : json) : Response :=
  {| status_code := 200; text := ""; body := Some v |}.

(** ** The requests of add user to pool *)

Definition listing_request (pools_service_url location : string) : Request :=
  {| method := GET;
     url := pools_service_url ++ "/pools/?location=" ++ location;
     payload := None;
     timeout := Some REQUEST_TIMEOUT |}.

Definition creation_request (pools_service_url location : string) : Request :=
  {| method := POST;
     url := pools_service_url ++ "/pools/";
     payload := Some (JDict [("name", JStr ("Pool for " ++ location));
                             ("location", JStr location)]);
     timeout := Some REQUEST_TIMEOUT |}.





(** ** Random sampling *)

(** The selection loop as a function of the draws. *)
Fixpoint sample_from {A} (pool : list A) (m k : nat) (ds : list nat) : list A :=
  match k with
  | O => []
  | S k' =>
      let j := hd 0 ds mod m in
      match nth_error pool j, nth_error pool (m - 1) with
      | Some x, Some y => x :: sample_from (list_set j y pool) (m - 1) k' (tl ds)
      | _, _ => []
      end
  end.

(** The positions the loop over the population itself selects, and the
    draws it leaves. *)
Fixpoint rejected_from (n : nat) (selected : list nat) (k : nat) (ds : list nat)
  : list nat :=
  match k with
  | O => []
  | S k' =>
      let j := fst (redraw n selected ds) in
      j :: rejected_from n (j :: selected) k' (snd (redraw n selected ds))
  end.

Fixpoint left_by_rejection (n : nat) (selected : list nat) (k : nat) (ds : list nat)
  : list nat :=
  match k with
  | O => ds
  | S k' =>
      left_by_rejection n (fst (redraw n selected ds) :: selected) k'
        (snd (redraw n selected ds))
  end.


(** The positions [random.sample] selects among [n], for [k] draws, and the
    draws it leaves. *)
Definition positions (n k : nat) (ds : list nat) : list nat :=
  if (n <=? setsize k)%nat then sample_from (seq 0 n) n k ds
  else rejected_from n [] k ds.

Definition undrawn (n k : nat) (ds : list nat) : list nat :=
  if (n <=? setsize k)%nat then skipn k ds else left_by_rejection n [] k ds.



(** The entries of [pool] below [m] are pairwise distinct. *)
Definition distinct_below {A} (m : nat) (pool : list A) : Prop :=
  forall i i', i < m -> i' < m -> nth_error pool i = nth_error pool i' -> i = i'.

(** [z] is an entry of [pool] below [m]. *)
Definition among {A} (m : nat) (pool : list A) (z : A) : Prop :=
  exists i, i < m /\ nth_error pool i = Some z.

(** ** The calls of match generation *)

(** [member.get("user_id")] of a member that is a dict. *)
Definition peer_id (member : json) : json :=
  match py_get member "user_id" JNull with
  | Ok v => v
  | Raise _ => JNull
  end.

(** The request [create_match] sends for [member]. *)
Definition match_request (repr : json -> string) (matches_service_url : string)
    (pool_id : json) (user_id : UUID) (member : json) : Request :=
  {| method := POST;
     url := matches_service_url ++ "/matches/";
     payload := Some (JDict [("pool_id", JStr (py_str repr pool_id));
                             ("user1_id", JStr (str user_id));
                             ("user2_id", JStr (py_str repr (peer_id member)))]);
     timeout := Some REQUEST_TIMEOUT |}.


(** What [create_match] returns for the reply its call gets. *)
Definition created_by (reply : option Reply) : json :=
  match reply with
  | Some (Answered r) =>
      if ok r then match body r with Some v => v | None => JNull end else JNull
  | _ => JNull
  end.

(** What [n] calls in a row return. *)
Fixpoint values_of (n : nat) (rs : list Reply) : list json :=
  match n with
  | O => []
  | S n' => created_by (hd_error rs) :: values_of n' (tl rs)
  end.

(** What the executor block gathers: the results that are true, in the
    order the futures complete. *)
Definition gathered (order : list nat) (n : nat) (rs : list Reply) : list json :=
  filter truthy (completion order (values_of n rs) n).

(** The record of the creation branch for the matches [ms]. *)
Definition generated {Match : Type} (user_id : UUID) (pool_id : json) (ms : list Match)
  : Generated.t Match :=
  {| Generated.message :=
       "Generated " ++ str_of_nat (List.length ms) ++ " matches for user " ++ str user_id;
     Generated.pool_id := pool_id;
     Generated.matches_created := Z.of_nat (List.length ms);
     Generated.matches := ms |}.

(** The record of the branch with no other member. *)
Definition nobody (Match : Type) (pool_id : json) : Generated.t Match :=
  {| Generated.message := "No other users in the pool to match with";
     Generated.pool_id := pool_id;
     Generated.matches_created := 0;
     Generated.matches := [] |}.

(** The number of members [random.sample] is asked for among [n]. *)
Definition sample_size (max_matches : Z) (n : nat) : nat :=
  Z.to_nat (Z.min max_matches (Z.of_nat n)).

(** ** The calls of decision listing *)





(** ** Predicates on runs *)

(** [m] talks to the upstream services and does nothing else to the log and
    the replies: it adds requests at the end of the log, each of which
    satisfies [P], and takes replies from the front. *)
Definition sends (P : Request -> Prop) {A} (m : M A) : Prop :=
  forall w,
    exists new n,
      sent (snd (m w)) = sent w ++ new
      /\ Forall P new
      /\ replies (snd (m w)) = skipn n (replies w).

(** A handler that only raises. *)
Definition raises {A} (handler : exn -> option (M A)) : Prop :=
  forall e h, handler e = Some h -> exists e', forall w, h w = (Raise e', w).

(** The request carries the default timeout. *)
Definition timed (rq : Request) : Prop := timeout rq = Some REQUEST_TIMEOUT.

(** The members listing as [generate_matches_for_user_service] sends it. *)
Definition untimed_members_listing (pools_service_url : string) (rq : Request) : Prop :=
  exists pool_id : string,
    rq = {| method := GET;
            url := pools_service_url ++ "/pools/" ++ pool_id ++ "/members";
            payload := None;
            timeout := None |}.

(** [MatchGet] for the sample runs: every dict of fields validates. *)
Definition any_fields (fields : list (string * json)) : option (list (string * json)) :=
  Some fields.

(** The replies of the scenario: [u1] is in pool [p1] with [u2] and [u3]; the
    match with one of them is created, the other one exists already. *)
Definition scenario : list Reply :=
  [Answered (ok_reply (JList [JDict (membership_of u1)]));
   Answered (ok_reply (JDict pool_p1));
   Answered (ok_reply (JList [JDict (membership_of u1); JDict (membership_of u2);
                              JDict (membership_of u3)]));
   Answered {| status_code := 201; text := "";
               body := Some (JDict [("match_id", JStr (str m1))]) |};
   Answered {| status_code := 400; text := "duplicate"; body := None |}].

(** ** The outcome of a call *)

(** The world after a call: the request is logged and a reply is taken. *)
Definition after_call (rq : Request) (w : World) : World :=
  {| replies := tl (replies w); draws := draws w; finished := finished w;
     sent := sent w ++ [rq] |}.

(** The exception a call ends with when it fails, the call being followed
    by [raise_for_status]: a URL that is refused, no reply, or a reply with
    an error status. *)
Definition call_failure (reply : option Reply) : option exn :=
  match reply with
  | Some (Answered r) =>
      if is_error_status (status_code r) then Some (HTTPError r) else None
  | Some Invalid => Some InvalidURL
  | _ => Some TransportError
  end.


(** ** The requests of the other service functions *)




Definition membership_lookup_request (pools_service_url : string) (user_id : UUID)
  : Request :=
  {| method := GET;
     url := pools_service_url ++ "/pools/members?user_id=" ++ str user_id;
     payload := None;
     timeout := Some REQUEST_TIMEOUT |}.

Definition pool_request (pools_service_url pool_id : string) : Request :=
  {| method := GET;
     url := pools_service_url ++ "/pools/" ++ pool_id;
     payload := None;
     timeout := Some REQUEST_TIMEOUT |}.


(** The listing of the members as [generate_matches_for_user_service] asks
    for it: with no timeout. *)
Definition members_listing_request (pools_service_url pool_id : string) : Request :=
  {| method := GET;
     url := pools_service_url ++ "/pools/" ++ pool_id ++ "/members";
     payload := None;
     timeout := None |}.



(** ** Exceptions of the interpreter *)

(** The exceptions the operations on JSON values raise on a value that has
    not the shape the code expects. *)
Definition is_data_error (e : exn) : bool :=
  match e with
  | KeyError _ | TypeError | AttributeError | IndexError => true
  | _ => false
  end.

(** Of the fields the record of the pool lookup is built from with
    [user_pool[...]] and [user_member[...]], the first that is missing, in
    the order the record is built: [id], [name], [joined_at], [user_id]. *)
Definition missing_field (user_pool user_member : list (string * json)) : option string :=
  match dict_get user_pool "id" with
  | None => Some "id"
  | Some _ =>
      match dict_get user_pool "name" with
      | None => Some "name"
      | Some _ =>
          match dict_get user_member "joined_at" with
          | None => Some "joined_at"
          | Some _ =>
              match dict_get user_member "user_id" with
              | None => Some "user_id"
              | Some _ => None
              end
          end
      end
  end.

(** A listed pool on which the test of the filter raises: it is no object,
    or its [member_count] is no number. *)
Definition malformed_pool (p : json) : bool :=
  match p with
  | JDict fields =>
      match dict_get fields "member_count" with
      | Some (JInt _) | Some (JBool _) | Some (JFloat _) | None => false
      | Some _ => true
      end
  | _ => true
  end.




(** The method of the request is one of [methods]. *)
Definition uses (methods : list Method) (rq : Request) : Prop := In (method rq) methods.

(** The request goes to a URL that starts with [base]. *)
Definition under (base : string) (rq : Request) : Prop :=
  String.prefix base (url rq) = true.

(** [m] sends at most [k] requests. *)
Definition calls_at_most (k : nat) {A} (m : M A) : Prop :=
  forall w, exists new, sent (snd (m w)) = sent w ++ new /\ List.length new <= k.

(** ** More sample data *)

(** The replies to the pool lookup of [u1], followed by [rest]. *)
Definition found_p1 (rest : list Reply) : list Reply :=
  Answered (ok_reply (JList [JDict (membership_of u1)]))
    :: Answered (ok_reply (JDict pool_p1)) :: rest.



(** * Properties *)

(** ** Runs of the monad *)

Lemma try_except_world {A} (body : M A) (handler : exn -> option (M A)) (w : World) :
  raises handler -> snd (try_except body handler w) = snd (body w).
Proof.
  intros Hh. unfold try_except. destruct (body w) as [[a|e] w1]; [reflexivity|].
  destruct (handler e) as [h|] eqn:Eh; [|reflexivity].
  destruct (Hh e h Eh) as [e' He']. rewrite He'. reflexivity.
Qed.

Lemma try_except_Ok {A} (body : M A) (handler : exn -> option (M A)) (w : World) (a : A) :
  raises handler -> fst (try_except body handler w) = Ok a -> fst (body w) = Ok a.
Proof.
  intros Hh. unfold try_except. destruct (body w) as [[a'|e] w1]; [trivial|].
  destruct (handler e) as [h|] eqn:Eh; [|trivial].
  destruct (Hh e h Eh) as [e' He']. rewrite He'. discriminate.
Qed.

Lemma bind_Ok_run {A B} (m : M A) (k : A -> M B) (w w' : World) (b : B) :
  bind m k w = (Ok b, w') ->
  exists a w1, m w = (Ok a, w1) /\ k a w1 = (Ok b, w').
Proof.
  unfold bind. destruct (m w) as [[a|e] w1]; [|discriminate].
  intros H. exists a, w1. split; [reflexivity|assumption].
Qed.

Ltac raises_auto :=
  let e := fresh "e" in let h := fresh "h" in let H := fresh "H" in
  intros e h H;
  repeat match type of H with
         | (if ?b then _ else _) = Some _ => destruct b
         | match ?x with _ => _ end = Some _ => destruct x
         end;
  first [discriminate H
        | injection H as <-; eexists; intros; reflexivity].

(** ** Steps of a run *)

Lemma requests_request_run (rq : Request) (w : World) :
  requests_request rq w
  = (match hd_error (replies w) with
     | Some (Answered r) => Ok r
     | Some Invalid => Raise InvalidURL
     | _ => Raise TransportError
     end, after_call rq w).
Proof.
  unfold requests_request, after_call. destruct (replies w) as [|[r| |] rest]; reflexivity.
Qed.

Lemma bind_request {B} (rq : Request) (k : Response -> M B) (w : World) :
  bind (requests_request rq) k w
  = match hd_error (replies w) with
    | Some (Answered r) => k r (after_call rq w)
    | Some Invalid => (Raise InvalidURL, after_call rq w)
    | _ => (Raise TransportError, after_call rq w)
    end.
Proof.
  unfold bind. rewrite requests_request_run.
  destruct (hd_error (replies w)) as [[r| |]|]; reflexivity.
Qed.

Lemma bind_status {B} (r : Response) (k : unit -> M B) (w : World) :
  bind (raise_for_status r) k w
  = if is_error_status (status_code r) then (Raise (HTTPError r), w) else k tt w.
Proof.
  unfold bind, raise_for_status. destruct (is_error_status (status_code r)); reflexivity.
Qed.

Lemma bind_json {B} (r : Response) (k : json -> M B) (w : World) :
  bind (json_of r) k w
  = match body r with
    | Some v => k v w
    | None => (Raise JSONDecodeError, w)
    end.
Proof. unfold bind, json_of. destruct (body r); reflexivity. Qed.

Lemma bind_lift {A B} (x : Result A) (k : A -> M B) (w : World) :
  bind (lift x) k w = match x with Ok a => k a w | Raise e => (Raise e, w) end.
Proof. unfold bind, lift. destruct x; reflexivity. Qed.

Lemma bind_ret {A B} (a : A) (k : A -> M B) (w : World) : bind (ret a) k w = k a w.
Proof. reflexivity. Qed.

Lemma bind_assoc {A B C} (m : M A) (f : A -> M B) (g : B -> M C) (w : World) :
  bind (bind m f) g w = bind m (fun a => bind (f a) g) w.
Proof. unfold bind. destruct (m w) as [[a|e] w']; reflexivity. Qed.

Lemma bind_run {A B} (m : M A) (k : A -> M B) (w w1 : World) (a : A) :
  m w = (Ok a, w1) -> bind m k w = k a w1.
Proof. unfold bind. intros ->. reflexivity. Qed.

Lemma bind_run_raise {A B} (m : M A) (k : A -> M B) (w w1 : World) (e : exn) :
  m w = (Raise e, w1) -> bind m k w = (Raise e, w1).
Proof. unfold bind. intros ->. reflexivity. Qed.

Lemma try_except_same_world {A} (body : M A) (handler : exn -> option (M A)) (w : World) :
  (forall e h w', handler e = Some h -> snd (h w') = w') ->
  snd (try_except body handler w) = snd (body w).
Proof.
  intros Hh. unfold try_except. destruct (body w) as [[a|e] w1]; [reflexivity|].
  destruct (handler e) as [h|] eqn:Eh; [|reflexivity]. apply (Hh e h w1 Eh).
Qed.

Lemma ok_status (r : Response) : ok r = true -> is_error_status (status_code r) = false.
Proof. unfold ok. apply negb_true_iff. Qed.

Lemma after_call_replies (rq : Request) (w : World) :
  replies (after_call rq w) = tl (replies w).
Proof. reflexivity. Qed.

(** ** The run of the pool lookup *)

Section PoolLookup.
Variable repr : json -> string.
Variables (purl : string) (user_id : UUID).

(** The run of the pool lookup once the membership of the user is found:
    the pool is asked for under the [pool_id] of the first membership. *)
Lemma pool_lookup_member (w : World) (r1 : Response) (first : list (string * json))
    (others : list json) (rest : list Reply) :
  replies w = Answered r1 :: rest ->
  ok r1 = true ->
  body r1 = Some (JList (JDict first :: others)) ->
  let pool_id := match dict_get first "pool_id" with Some v => v | None => JNull end in
  let w1 := after_call (membership_lookup_request purl user_id) w in
  let w2 := after_call (pool_request purl (py_str repr pool_id)) w1 in
  get_user_pool_from_service repr user_id purl w
  = try_except
      (fun _ =>
         match hd_error rest with
         | Some (Answered r2) =>
             if is_error_status (status_code r2) then (Raise (HTTPError r2), w2)
             else
               match body r2 with
               | None => (Raise JSONDecodeError, w2)
               | Some user_pool =>
                   (id <- lift (py_item user_pool "id") ;;
                    name <- lift (py_item user_pool "name") ;;
                    location <- lift (py_get user_pool "location" JNull) ;;
                    member_count <- lift (py_get user_pool "member_count" JNull) ;;
                    joined_at <- lift (py_item (JDict first) "joined_at") ;;
                    member_user_id <- lift (py_item (JDict first) "user_id") ;;
                    ret {| UserPool.pool_id := id;
                           UserPool.pool_name := name;
                           UserPool.location := location;
                           UserPool.member_count := member_count;
                           UserPool.joined_at := joined_at;
                           UserPool.user_id := member_user_id |}) w2
               end
         | Some Invalid => (Raise InvalidURL, w2)
         | _ => (Raise TransportError, w2)
         end)
      (fun e =>
         if is_ValueError e then Some (raise e)
         else if is_RequestException e then Some (communication_error e)
         else None) w.
Proof.
  intros Hreplies Hok Hbody pool_id w1 w2.
  unfold get_user_pool_from_service, try_except, requests_get.
  rewrite bind_request, Hreplies. cbn [hd_error].
  rewrite bind_status, (ok_status _ Hok), bind_json, Hbody.
  cbn [truthy negb]. rewrite bind_assoc, bind_lift. cbn [py_len List.length].
  rewrite !bind_ret.
  replace (Z.of_nat (S (List.length others)) =? 0)%Z with false
    by (symmetry; apply Z.eqb_neq; lia).
  rewrite bind_lift. cbn [py_item0]. rewrite bind_lift. cbn [py_get]. fold pool_id.
  rewrite bind_request.
  fold (membership_lookup_request purl user_id).
  fold (pool_request purl (py_str repr pool_id)). fold w1. 
  replace (hd_error (replies w1)) with (hd_error rest)
    by (unfold w1; rewrite after_call_replies, Hreplies; reflexivity).
  fold w2.
  destruct (hd_error rest) as [[r2| |]|]; try reflexivity.
  rewrite bind_status. destruct (is_error_status (status_code r2)); [reflexivity|].
  rewrite bind_json. destruct (body r2); reflexivity.
Qed.

Lemma pool_lookup_handler_raises :
  raises (fun e : exn =>
            if is_ValueError e then Some (raise (A := UserPool.t) e)
            else if is_RequestException e then Some (communication_error e)
            else None).
Proof. raises_auto. Qed.


(** A pool lookup that returns has made its two calls, and both were
    answered. *)
Lemma pool_lookup_Ok (w w1 : World) (found : UserPool.t) :
  get_user_pool_from_service repr user_id purl w = (Ok found, w1) ->
  exists (asked : json) (r1 r2 : Response) (rest : list Reply),
    replies w = Answered r1 :: Answered r2 :: rest
    /\ w1 = after_call (pool_request purl (py_str repr asked))
              (after_call (membership_lookup_request purl user_id) w).
Proof.
  intros H. unfold get_user_pool_from_service in H.
  assert (Hbody : forall (body : M UserPool.t) handler,
             raises handler -> try_except body handler w = (Ok found, w1) ->
             body w = (Ok found, w1)).
  { intros body handler Hh. unfold try_except.
    destruct (body w) as [[a|e] w']; [trivial|].
    destruct (handler e) as [h|] eqn:Eh; [|trivial].
    destruct (Hh e h Eh) as [e' He']. rewrite He'. discriminate. }
  apply Hbody in H; [|apply pool_lookup_handler_raises]. clear Hbody.
  unfold requests_get in H. rewrite bind_request in H.
  destruct (replies w) as [|[r1| |] rest1] eqn:Hreplies; try discriminate H.
  cbn [hd_error] in H. rewrite bind_status in H.
  destruct (is_error_status (status_code r1)); [discriminate H|].
  rewrite bind_json in H. destruct (body r1) as [members|]; [|discriminate H].
  destruct (negb (truthy members)); [discriminate H|].
  rewrite bind_assoc, bind_lift in H.
  destruct (py_len members) as [n|]; [|discriminate H].
  rewrite !bind_ret in H. destruct (n =? 0)%Z; [discriminate H|].
  rewrite bind_lift in H. destruct (py_item0 members) as [user_member|]; [|discriminate H].
  rewrite bind_lift in H.
  destruct (py_get user_member "pool_id" JNull) as [asked|]; [|discriminate H].
  rewrite bind_request in H. rewrite after_call_replies, Hreplies in H. cbn [tl] in H.
  destruct rest1 as [|[r2| |] rest]; try discriminate H.
  cbn [hd_error] in H. rewrite bind_status in H.
  destruct (is_error_status (status_code r2)); [discriminate H|].
  rewrite bind_json in H. destruct (body r2) as [user_pool|]; [|discriminate H].
  repeat (rewrite bind_lift in H;
          match type of H with
          | match ?x with _ => _ end = _ => destruct x; [|discriminate H]
          end).
  injection H as _ <-. exists asked, r1, r2, rest. split; reflexivity.
Qed.

End PoolLookup.

(** ** The truth value of an error response *)

Lemma Response_bool_error (r : Response) :
  is_error_status (status_code r) = true -> Response_bool r = false.
Proof. unfold Response_bool, ok. intros ->. reflexivity. Qed.

(** The status test of the except clauses never succeeds for a status that
    [raise_for_status] raises for: the response of the exception is false. *)
Lemma response_has_status_error (e : exn) (s : Z) :
  is_error_status s = true -> response_has_status e s = false.
Proof.
  intros Hs. unfold response_has_status.
  destruct (response_of e) as [r|]; [|reflexivity].
  destruct (Z.eqb_spec (status_code r) s) as [Heq|]; [|apply andb_false_r].
  subst s. rewrite Response_bool_error by assumption. reflexivity.
Qed.


(** For whatever error status the upstream service answers, the status
    branches of the except clauses are not entered: the calls end in
    RuntimeError. *)
Lemma get_user_matches_error_status (url : string) (user_id : UUID) (r : Response)
    rest ds order log :
  is_error_status (status_code r) = true ->
  fst (get_user_matches_from_service user_id url (answering r rest ds order log))
  = Raise (RuntimeError (Fmt "Service communication error: " (HTTPError r))).
Proof.
  intros Hs.
  unfold get_user_matches_from_service, try_except, bind, requests_get, requests_request,
    answering, raise_for_status.
  cbn [replies]. rewrite Hs. cbn [raise is_RequestException].
  rewrite (response_has_status_error (HTTPError r) 404) by reflexivity. reflexivity.
Qed.

Lemma delete_user_error_status (url : string) (user_id : UUID) (r : Response)
    rest ds order log :
  is_error_status (status_code r) = true ->
  fst (delete_user_from_pool_service user_id url (answering r rest ds order log))
  = Raise (RuntimeError (Fmt "Service communication error: " (HTTPError r))).
Proof.
  intros Hs.
  unfold delete_user_from_pool_service, try_except, bind, requests_delete,
    requests_request, answering, raise_for_status.
  cbn [replies]. rewrite Hs. cbn [raise is_RequestException].
  rewrite (response_has_status_error (HTTPError r) 404) by reflexivity. reflexivity.
Qed.

Lemma submit_decision_error_status (url : string) (user_id match_id : UUID)
    (decision : string) (r : Response) rest ds order log :
  is_error_status (status_code r) = true ->
  fst (submit_decision_for_user_match user_id match_id decision url
         (answering r rest ds order log))
  = Raise (RuntimeError (Fmt "Service communication error: " (HTTPError r))).
Proof.
  intros Hs.
  unfold submit_decision_for_user_match, try_except, bind, requests_post,
    requests_request, answering, raise_for_status.
  cbn [replies]. rewrite Hs. cbn [raise is_RequestException response_of].
  rewrite (Response_bool_error r) by assumption. reflexivity.
Qed.

(** ** List user matches and decisions: an upstream 404 *)

(** C6, evaluated on the code: when the matches service answers the listing
    with 404, [get_user_matches_from_service] and
    [get_user_decisions_from_service] raise RuntimeError and the resources
    answer 502; the empty list of the except clause is not returned. *)
Theorem listing_upstream_404 :
  forall (repr : json -> string) (url : string) (user_id : UUID)
         (txt : string) (b : option json) rest ds order log,
    let r := not_found txt b in
    let w := answering r rest ds order log in
    let e := RuntimeError (Fmt "Service communication error: " (HTTPError r)) in
    fst (get_user_matches_from_service user_id url w) = Raise e
    /\ fst (get_user_matches url user_id w) = Raise (HTTPException 502 (str_exn e))
    /\ fst (get_user_decisions_from_service repr user_id url w) = Raise e
    /\ fst (get_user_decisions repr url user_id w) = Raise (HTTPException 502 (str_exn e)).
Proof.
  intros. repeat split; reflexivity.
Qed.

(** ** Get user pool *)




(** ** Submit decision and remove user from pool: upstream error statuses *)

(** C5, evaluated on the code: when the matches service answers the decision
    call with 400, 403 or 404, [submit_decision_for_user_match] raises
    RuntimeError each time and the resource answers 502: the response of the
    exception is false, so the branches for the three statuses are not
    entered. *)
Theorem submit_decision_upstream_errors :
  forall (url : string) (user_id match_id : UUID) (decision : string)
         (txt : string) (b : option json) rest ds order log,
    let w s := answering (status_reply s txt b) rest ds order log in
    let e s :=
      RuntimeError (Fmt "Service communication error: " (HTTPError (status_reply s txt b))) in
    let unavailable s :=
      fst (submit_decision_for_user_match user_id match_id decision url (w s))
      = Raise (e s)
      /\ fst (submit_user_match_decision url user_id match_id decision (w s))
         = Raise (HTTPException 502 (str_exn (e s))) in
    unavailable 400%Z /\ unavailable 403%Z /\ unavailable 404%Z.
Proof.
  intros. repeat split; reflexivity.
Qed.

(** C7, evaluated on the code: when the pools service answers the delete call
    with 404, [delete_user_from_pool_service] raises RuntimeError and the
    resource answers 502, not 404. *)
Theorem delete_upstream_404 :
  forall (url : string) (user_id : UUID) (txt : string) (b : option json)
         rest ds order log,
    let r := not_found txt b in
    let w := answering r rest ds order log in
    let e := RuntimeError (Fmt "Service communication error: " (HTTPError r)) in
    fst (delete_user_from_pool_service user_id url w) = Raise e
    /\ fst (remove_user_from_pool url user_id w) = Raise (HTTPException 502 (str_exn e)).
Proof.
  intros. split; reflexivity.
Qed.

(** ** The requests a run sends *)

Section Sends.
Variable P : Request -> Prop.

Lemma sends_nothing {A} (m : M A) :
  (forall w, sent (snd (m w)) = sent w /\ replies (snd (m w)) = replies w) ->
  sends P m.
Proof.
  intros H w. destruct (H w) as [Hsent Hreplies]. exists [], 0.
  rewrite app_nil_r. repeat split; [assumption|constructor|assumption].
Qed.

Lemma sends_ret {A} (a : A) : sends P (ret a).
Proof. apply sends_nothing. intros w. split; reflexivity. Qed.

Lemma sends_raise {A} (e : exn) : sends P (@raise A e).
Proof. apply sends_nothing. intros w. split; reflexivity. Qed.

Lemma sends_lift {A} (r : Result A) : sends P (lift r).
Proof. apply sends_nothing. intros w. split; reflexivity. Qed.

Lemma sends_then {B} (w w1 : World) (new1 : list Request) (n1 : nat) (k : M B) :
  sent w1 = sent w ++ new1 -> Forall P new1 -> replies w1 = skipn n1 (replies w) ->
  sends P k ->
  exists new n,
    sent (snd (k w1)) = sent w ++ new /\ Forall P new
    /\ replies (snd (k w1)) = skipn n (replies w).
Proof.
  intros E1 F1 R1 Hk. destruct (Hk w1) as (new2 & n2 & E2 & F2 & R2).
  exists (new1 ++ new2), (n2 + n1).
  rewrite E2, E1, app_assoc, R2, R1, skipn_skipn.
  repeat split. apply Forall_app; split; assumption.
Qed.

Lemma sends_bind {A B} (m : M A) (k : A -> M B) :
  sends P m -> (forall a, sends P (k a)) -> sends P (bind m k).
Proof.
  intros Hm Hk w. unfold bind. destruct (Hm w) as (new1 & n1 & E1 & F1 & R1).
  destruct (m w) as [[a|e] w1]; cbn [snd] in E1, R1.
  - eapply sends_then; eauto.
  - exists new1, n1. repeat split; assumption.
Qed.

Lemma sends_try_except {A} (body : M A) (handler : exn -> option (M A)) :
  sends P body -> (forall e h, handler e = Some h -> sends P h) ->
  sends P (try_except body handler).
Proof.
  intros Hb Hh w. unfold try_except. destruct (Hb w) as (new1 & n1 & E1 & F1 & R1).
  destruct (body w) as [[a|e] w1]; cbn [snd] in E1, R1.
  - exists new1, n1. repeat split; assumption.
  - destruct (handler e) as [h|] eqn:Eh.
    + eapply sends_then; eauto.
    + exists new1, n1. repeat split; assumption.
Qed.

Lemma sends_request (rq : Request) : P rq -> sends P (requests_request rq).
Proof.
  intros Hrq w. exists [rq], 1. unfold requests_request.
  destruct (replies w) as [|[r| |] rest]; cbn;
    (repeat split; [repeat constructor; assumption]).
Qed.

Lemma sends_raise_for_status (r : Response) : sends P (raise_for_status r).
Proof.
  unfold raise_for_status. destruct (is_error_status (status_code r));
    [apply sends_raise|apply sends_ret].
Qed.

Lemma sends_json_of (r : Response) : sends P (json_of r).
Proof. unfold json_of. destruct (body r); [apply sends_ret|apply sends_raise]. Qed.

Lemma sends_randbelow (n : nat) : sends P (randbelow n).
Proof. apply sends_nothing. intros w. split; reflexivity. Qed.

Lemma sends_random_choice {A} (l : list A) : sends P (random_choice l).
Proof.
  destruct l; [apply sends_raise|]. apply sends_bind; [apply sends_randbelow|].
  intros; apply sends_ret.
Qed.

Lemma sends_sample_loop {A} (k : nat) : forall (pool : list A) (m : nat),
  sends P (sample_loop pool m k).
Proof.
  induction k as [|k IH]; intros pool m; cbn [sample_loop]; [apply sends_ret|].
  apply sends_bind; [apply sends_randbelow|]. intros j.
  destruct (nth_error pool j); [|apply sends_raise].
  destruct (nth_error pool (m - 1)); [|apply sends_raise].
  apply sends_bind; [apply IH|]. intros; apply sends_ret.
Qed.

Lemma sends_draw_unselected (n : nat) (selected : list nat) :
  sends P (draw_unselected n selected).
Proof. apply sends_nothing. intros w. split; reflexivity. Qed.

Lemma sends_reject_loop {A} (population : list A) (n k : nat) :
  forall selected, sends P (reject_loop population n selected k).
Proof.
  induction k as [|k IH]; intros selected; cbn [reject_loop]; [apply sends_ret|].
  apply sends_bind; [apply sends_draw_unselected|]. intros j.
  destruct (nth_error population j); [|apply sends_raise].
  apply sends_bind; [apply IH|]. intros; apply sends_ret.
Qed.

Lemma sends_random_sample {A} (l : list A) (k : Z) : sends P (random_sample l k).
Proof.
  unfold random_sample. destruct (_ && _); [|apply sends_raise].
  destruct (_ <=? _)%nat; [apply sends_sample_loop|apply sends_reject_loop].
Qed.

Lemma sends_submit {A} (call : M A) : sends P call -> sends P (submit call).
Proof.
  intros H w. destruct (H w) as (new & n & E & F & R). exists new, n. unfold submit.
  destruct (call w) as [r w1]. repeat split; assumption.
Qed.

Lemma sends_submit_all {A} (calls : list (M A)) :
  Forall (sends P) calls -> sends P (submit_all calls).
Proof.
  induction 1 as [|c rest Hc _ IH]; cbn [submit_all]; [apply sends_ret|].
  apply sends_bind; [apply sends_submit; assumption|]. intros f.
  apply sends_bind; [assumption|]. intros; apply sends_ret.
Qed.

Lemma sends_as_completed {A} (futures : list A) : sends P (as_completed futures).
Proof. apply sends_nothing. intros w. split; reflexivity. Qed.

End Sends.

Lemma sends_weaken (P Q : Request -> Prop) {A} (m : M A) :
  (forall rq, P rq -> Q rq) -> sends P m -> sends Q m.
Proof.
  intros HPQ H w. destruct (H w) as (new & n & E & F & R). exists new, n.
  repeat split; [assumption| |assumption].
  revert F. apply Forall_impl. assumption.
Qed.

Lemma In_skipn {A} (n : nat) (l : list A) (x : A) : In x (skipn n l) -> In x l.
Proof.
  intros H. rewrite <- (firstn_skipn n l). apply in_or_app. right. assumption.
Qed.

Create HintDb sends.

#[local] Hint Resolve sends_ret sends_raise sends_lift sends_raise_for_status
  sends_json_of sends_randbelow sends_random_choice sends_random_sample
  sends_as_completed : sends.

Ltac sends_step :=
  match goal with
  | |- sends _ (bind _ _) => apply sends_bind; [|intros ?]
  | |- sends _ (try_except _ _) => apply sends_try_except; [|intros ? ? ?]
  | |- sends _ (requests_get _ _) => apply sends_request
  | |- sends _ (requests_post _ _ _) => apply sends_request
  | |- sends _ (requests_patch _ _ _) => apply sends_request
  | |- sends _ (requests_delete _ _) => apply sends_request
  | |- sends _ (communication_error _) => apply sends_raise
  | H : Some _ = Some _ |- _ => injection H as <-
  | H : None = Some _ |- _ => discriminate H
  | H : (if ?b then _ else _) = Some _ |- _ => destruct b
  | H : match ?x with _ => _ end = Some _ |- _ => destruct x
  | |- sends _ (if ?b then _ else _) => destruct b
  | |- sends _ (match ?x with _ => _ end) => destruct x
  | |- sends _ _ => solve [auto with sends]
  end.

Ltac sends_auto := repeat sends_step.


Section Timeouts.

Variable repr : json -> string.
Variable Match : Type.
Variable MatchGet : list (string * json) -> option Match.
Variables (user_id : UUID) (url : string).

Lemma get_user_pool_timed : sends timed (get_user_pool_from_service repr user_id url).
Proof. unfold get_user_pool_from_service. sends_auto; reflexivity. Qed.

Lemma add_user_to_pool_timed location coord_x coord_y max_pool_size :
  sends timed
    (add_user_to_pool_service repr user_id location coord_x coord_y url max_pool_size).
Proof.
  unfold add_user_to_pool_service, create_pool, join_pool. sends_auto; reflexivity.
Qed.

Lemma get_user_matches_timed : sends timed (get_user_matches_from_service user_id url).
Proof. unfold get_user_matches_from_service. sends_auto; reflexivity. Qed.

Lemma get_pool_members_timed :
  sends timed (get_pool_members_from_service repr user_id url).
Proof.
  unfold get_pool_members_from_service.
  sends_auto; try reflexivity; apply get_user_pool_timed.
Qed.

Lemma fetch_decision_timed match_ : sends timed (fetch_decision repr user_id url match_).
Proof. unfold fetch_decision. sends_auto; reflexivity. Qed.

Lemma fetch_decisions_timed matches :
  forall all_decisions,
    sends timed (fetch_decisions repr user_id url matches all_decisions).
Proof.
  induction matches as [|match_ rest IH]; intros acc; cbn [fetch_decisions].
  - apply sends_ret.
  - apply sends_bind; [apply fetch_decision_timed|]. intros found. apply IH.
Qed.

Lemma get_user_decisions_timed :
  sends timed (get_user_decisions_from_service repr user_id url).
Proof.
  unfold get_user_decisions_from_service.
  sends_auto; try reflexivity; apply fetch_decisions_timed.
Qed.

Lemma submit_decision_timed match_id decision :
  sends timed (submit_decision_for_user_match user_id match_id decision url).
Proof. unfold submit_decision_for_user_match. sends_auto; reflexivity. Qed.

Lemma delete_user_from_pool_timed : sends timed (delete_user_from_pool_service user_id url).
Proof. unfold delete_user_from_pool_service. sends_auto; reflexivity. Qed.

Lemma update_coordinates_timed coord_x coord_y :
  sends timed (update_user_pool_coordinates_service repr user_id coord_x coord_y url).
Proof.
  unfold update_user_pool_coordinates_service.
  sends_auto; try reflexivity; apply get_user_pool_timed.
Qed.

Lemma create_match_timed pool_id member :
  sends timed (create_match repr url pool_id user_id member).
Proof. unfold create_match. sends_auto; reflexivity. Qed.

Lemma collect_created_sends P completed :
  forall created, sends P (collect_created completed created).
Proof.
  induction completed as [|future rest IH]; intros created; cbn [collect_created].
  - apply sends_ret.
  - apply sends_bind; [apply sends_lift|]. intros match_. apply IH.
Qed.

Lemma create_matches_timed pool_id selected :
  sends timed (create_matches repr url pool_id user_id selected).
Proof.
  unfold create_matches. apply sends_bind.
  - apply sends_submit_all. apply Forall_forall. intros call Hcall.
    apply in_map_iff in Hcall. destruct Hcall as (member & <- & _).
    apply create_match_timed.
  - intros futures. apply sends_bind; [apply sends_as_completed|].
    intros completed. apply collect_created_sends.
Qed.

End Timeouts.

(** Every request of match generation carries the default timeout, but for
    the listing of the pool's members. *)
Lemma generate_matches_timed_but_listing (repr : json -> string) (Match : Type)
    (MatchGet : list (string * json) -> option Match) (user_id : UUID)
    (url pools_service_url : string) (max_matches : Z) :
  sends (fun rq => timed rq \/ untimed_members_listing pools_service_url rq)
    (generate_matches_for_user_service repr MatchGet user_id url pools_service_url
       max_matches).
Proof.
  unfold generate_matches_for_user_service, pool_and_others, match_with.
  sends_auto.
  - apply sends_weaken with (P := timed); [tauto|]. apply get_user_pool_timed.
  - right. eexists. reflexivity.
  - apply sends_weaken with (P := timed); [tauto|]. apply create_matches_timed.
Qed.


(** C8, evaluated on the code: in the scenario, the third request of match
    generation, the listing of the pool's members, is sent with no timeout;
    the two before it and the two after it carry the default. *)
Theorem members_listing_without_timeout :
  forall (repr : json -> string) (murl purl : string),
    map (fun rq => (method rq, url rq, timeout rq))
      (sent (snd (generate_matches_for_user repr any_fields purl murl u1
                    (world scenario [] []))))
    = [(GET, (purl ++ "/pools/members?user_id=" ++ str u1)%string, Some REQUEST_TIMEOUT);
       (GET, (purl ++ "/pools/p1")%string, Some REQUEST_TIMEOUT);
       (GET, (purl ++ "/pools/p1/members")%string, None);
       (POST, (murl ++ "/matches/")%string, Some REQUEST_TIMEOUT);
       (POST, (murl ++ "/matches/")%string, Some REQUEST_TIMEOUT)].
Proof.
  intros. reflexivity.
Qed.

(** ** Add user to pool *)

Lemma filter_result_In {A} (f : A -> Result bool) (l kept : list A) :
  filter_result f l = Ok kept ->
  forall x, In x kept <-> In x l /\ f x = Ok true.
Proof.
  revert kept. induction l as [|y rest IH]; intros kept H x; cbn in H.
  - injection H as <-. cbn. tauto.
  - destruct (f y) as [b|e] eqn:Ey; [|discriminate].
    destruct (filter_result f rest) as [rest'|e]; [|discriminate].
    injection H as <-. specialize (IH rest' eq_refl x).
    destruct b; cbn; rewrite IH; intuition (subst; try congruence).
Qed.



Lemma random_choice_run {A} (first : A) (others : list A) (w : World) :
  random_choice (first :: others) w
  = (Ok (nth (hd 0 (draws w) mod List.length (first :: others)) (first :: others) first),
     {| replies := replies w; draws := tl (draws w); finished := finished w;
        sent := sent w |}).
Proof. reflexivity. Qed.


(** C10. A listed pool with no [member_count] is tested as if the count were
    0: for a positive [max_pool_size] it passes the test, whatever else the
    pool holds, and stays among the pools the target is chosen from. *)
Theorem pool_without_member_count_is_eligible :
  forall (max_pool_size : Z) (fields : list (string * json)),
    (0 < max_pool_size)%Z ->
    dict_get fields "member_count" = None ->
    not_full max_pool_size (JDict fields)
    = not_full max_pool_size (JDict (("member_count", JInt 0) :: fields))
    /\ not_full max_pool_size (JDict fields) = Ok true
    /\ forall listed pools,
         filter_result (not_full max_pool_size) listed = Ok pools ->
         In (JDict fields) listed -> In (JDict fields) pools.
Proof.
  intros max_pool_size fields Hmax Hnone.
  assert (Hdefault : not_full max_pool_size (JDict fields) = Ok (0 <? max_pool_size)%Z).
  { unfold not_full, py_get. rewrite Hnone. reflexivity. }
  assert (Hpasses : not_full max_pool_size (JDict fields) = Ok true).
  { rewrite Hdefault. f_equal. apply Z.ltb_lt. assumption. }
  split; [rewrite Hdefault; reflexivity|]. split; [assumption|].
  intros listed pools Hfilter Hin.
  eapply filter_result_In; [eassumption|]. split; assumption.
Qed.

(** The statement of [pool_without_member_count_is_eligible] for the
    capacity of 20 and a pool that only has an id. *)
Lemma pool_without_member_count_is_eligible_witness :
  not_full 20 (JDict [("id", JStr "p9")])
  = not_full 20 (JDict [("member_count", JInt 0); ("id", JStr "p9")])
  /\ not_full 20 (JDict [("id", JStr "p9")]) = Ok true
  /\ forall listed pools,
       filter_result (not_full 20) listed = Ok pools ->
       In (JDict [("id", JStr "p9")]) listed -> In (JDict [("id", JStr "p9")]) pools.
Proof.
  apply (pool_without_member_count_is_eligible (max_pool_size := 20)
           [("id", JStr "p9")]).
  - reflexivity.
  - reflexivity.
Defined.

Section Add.
Variable repr : json -> string.
Variables (user_id : UUID) (location : string) (coord_x coord_y : option Q).
Variables (purl : string) (max_pool_size : Z).


(** The run of [create_pool]. *)
Lemma create_pool_run (w : World) :
  create_pool location purl w
  = (match hd_error (replies w) with
     | Some (Answered r) =>
         if is_error_status (status_code r) then Raise (HTTPError r)
         else match body r with
              | Some pool =>
                  if is_dict pool then Ok pool
                  else Raise (RuntimeError
                                (Lit ("Unexpected pool response format: " ++ py_type pool)))
              | None => Raise JSONDecodeError
              end
     | Some Invalid => Raise InvalidURL
     | _ => Raise TransportError
     end, after_call (creation_request purl location) w).
Proof.
  unfold create_pool, requests_post. rewrite bind_request.
  destruct (hd_error (replies w)) as [[r| |]|]; try reflexivity.
  rewrite bind_status. destruct (is_error_status (status_code r)); [reflexivity|].
  rewrite bind_json. destruct (body r) as [pool|]; [|reflexivity].
  destruct (is_dict pool); reflexivity.
Qed.






End Add.


(** ** Random sampling without replacement *)

Section Sampling.
Context {A : Type}.

Lemma length_list_set (j : nat) (y : A) (l : list A) :
  List.length (list_set j y l) = List.length l.
Proof.
  revert j. induction l as [|h t IH]; intros [|j]; cbn; try reflexivity.
  rewrite IH. reflexivity.
Qed.

Lemma nth_error_list_set_eq (j : nat) (y : A) (l : list A) :
  j < List.length l -> nth_error (list_set j y l) j = Some y.
Proof.
  revert j. induction l as [|h t IH]; intros [|j] Hj; cbn in *; try lia.
  - reflexivity.
  - apply IH. lia.
Qed.

Lemma nth_error_list_set_ne (j i : nat) (y : A) (l : list A) :
  i <> j -> nth_error (list_set j y l) i = nth_error l i.
Proof.
  revert j i. induction l as [|h t IH]; intros [|j] [|i] Hne; cbn; try reflexivity.
  - congruence.
  - apply IH. congruence.
Qed.

Lemma nth_error_below (l : list A) (i : nat) :
  i < List.length l -> exists x, nth_error l i = Some x.
Proof.
  intros Hi. destruct (nth_error l i) as [x|] eqn:E; [eauto|].
  apply nth_error_None in E. lia.
Qed.

(** One round of the loop keeps the entries below the bound distinct, and
    they are the former ones without the one selected. *)
Lemma round_distinct (pool : list A) (m j : nat) (x y : A) :
  distinct_below m pool -> m <= List.length pool -> j < m ->
  nth_error pool j = Some x -> nth_error pool (m - 1) = Some y ->
  distinct_below (m - 1) (list_set j y pool).
Proof.
  intros Hd Hm Hj Hx Hy i i' Hi Hi' E.
  destruct (Nat.eq_dec i j) as [->|Ni], (Nat.eq_dec i' j) as [->|Ni']; trivial.
  - rewrite nth_error_list_set_eq, nth_error_list_set_ne in E by lia.
    rewrite <- Hy in E. apply Hd in E; lia.
  - rewrite nth_error_list_set_eq, nth_error_list_set_ne in E by lia.
    rewrite <- Hy in E. apply Hd in E; lia.
  - rewrite !nth_error_list_set_ne in E by assumption. apply Hd; trivial; lia.
Qed.

Lemma round_among (pool : list A) (m j : nat) (x y z : A) :
  distinct_below m pool -> m <= List.length pool -> j < m ->
  nth_error pool j = Some x -> nth_error pool (m - 1) = Some y ->
  among (m - 1) (list_set j y pool) z <-> among m pool z /\ z <> x.
Proof.
  intros Hd Hm Hj Hx Hy. split.
  - intros (i & Hi & Hz). destruct (Nat.eq_dec i j) as [->|Ni].
    + rewrite nth_error_list_set_eq in Hz by lia. injection Hz as <-.
      split; [exists (m - 1); split; [lia|assumption]|].
      intros ->. rewrite <- Hx in Hy. apply Hd in Hy; lia.
    + rewrite nth_error_list_set_ne in Hz by assumption.
      split; [exists i; split; [lia|assumption]|].
      intros ->. rewrite <- Hx in Hz. apply Hd in Hz; lia.
  - intros [(i & Hi & Hz) Hne].
    assert (Nij : i <> j) by (intros ->; congruence).
    destruct (Nat.eq_dec i (m - 1)) as [->|Nim].
    + exists j. split; [lia|].
      rewrite nth_error_list_set_eq by lia. congruence.
    + exists i. split; [lia|]. rewrite nth_error_list_set_ne by assumption.
      assumption.
Qed.

Lemma sample_from_spec (k : nat) :
  forall (pool : list A) (m : nat) (ds : list nat),
    distinct_below m pool -> k <= m -> m <= List.length pool ->
    let picked := sample_from pool m k ds in
    List.length picked = k
    /\ NoDup picked
    /\ forall z, In z picked -> among m pool z.
Proof.
  induction k as [|k IH]; intros pool m ds Hd Hk Hm; cbn [sample_from].
  - repeat split; [constructor|intros z []].
  - set (j := hd 0 ds mod m).
    assert (Hj : j < m) by (apply Nat.mod_upper_bound; lia).
    destruct (nth_error_below pool (i := j)) as [x Hx]; [lia|].
    destruct (nth_error_below pool (i := m - 1)) as [y Hy]; [lia|].
    rewrite Hx, Hy.
    destruct (IH (list_set j y pool) (m - 1) (tl ds)) as (Hlen & Hnd & Hin).
    { eapply round_distinct; eassumption. }
    { lia. }
    { rewrite length_list_set. lia. }
    cbv zeta. split; [cbn; rewrite Hlen; reflexivity|]. split.
    + constructor; [|assumption]. intros Hx'. apply Hin in Hx'.
      eapply round_among in Hx'; try eassumption. tauto.
    + intros z [<-|Hz]; [exists j; auto|].
      apply Hin in Hz. eapply round_among in Hz; try eassumption. tauto.
Qed.



Lemma sample_from_map {B} (f : A -> B) (k : nat) :
  forall (pool : list A) (m : nat) (ds : list nat),
    sample_from (map f pool) m k ds = map f (sample_from pool m k ds).
Proof.
  assert (Hset : forall j y (l : list A),
             list_set j (f y) (map f l) = map f (list_set j y l)).
  { intros j y l. revert j. induction l as [|h t IHl]; intros [|j]; cbn; trivial.
    rewrite IHl. reflexivity. }
  induction k as [|k IH]; intros pool m ds; cbn [sample_from]; [reflexivity|].
  rewrite !nth_error_map.
  destruct (nth_error pool (hd 0 ds mod m)) as [x|]; [|reflexivity].
  destruct (nth_error pool (m - 1)) as [y|]; [|reflexivity].
  cbn. rewrite Hset, IH. reflexivity.
Qed.

Lemma sample_loop_run (k : nat) :
  forall (pool : list A) (m : nat) (w : World),
    k <= m -> m <= List.length pool ->
    sample_loop pool m k w
    = (Ok (sample_from pool m k (draws w)),
       {| replies := replies w; draws := skipn k (draws w); finished := finished w;
          sent := sent w |}).
Proof.
  induction k as [|k IH]; intros pool m w Hk Hm; cbn [sample_loop sample_from].
  - destruct w; reflexivity.
  - unfold bind at 1, randbelow.
    destruct (nth_error_below pool (i := hd 0 (draws w) mod m)) as [x Hx].
    { pose proof (Nat.mod_upper_bound (hd 0 (draws w)) m). lia. }
    destruct (nth_error_below pool (i := m - 1)) as [y Hy]; [lia|].
    rewrite Hx, Hy. unfold bind. rewrite IH by (rewrite ?length_list_set; lia).
    cbn [draws replies finished sent]. unfold ret. f_equal. f_equal.
    destruct (draws w) as [|d ds]; cbn [tl skipn]; [apply skipn_nil|reflexivity].
Qed.

End Sampling.

Lemma distinct_below_seq (n : nat) : distinct_below n (seq 0 n).
Proof.
  intros i i' Hi Hi' E.
  rewrite !nth_error_seq in E.
  destruct (Nat.ltb_spec i n), (Nat.ltb_spec i' n); try lia. cbn in E. congruence.
Qed.

Lemma among_seq (n z : nat) : among n (seq 0 n) z <-> z < n.
Proof.
  split.
  - intros (i & Hi & Hz). rewrite nth_error_seq in Hz.
    destruct (Nat.ltb_spec i n); [|lia]. cbn in Hz. congruence.
  - intros Hz. exists z. split; [assumption|]. rewrite nth_error_seq.
    destruct (Nat.ltb_spec z n); [reflexivity|lia].
Qed.

Lemma map_nth_seq {A} (l : list A) (d : A) :
  map (fun i => nth i l d) (seq 0 (List.length l)) = l.
Proof.
  apply nth_ext with (d := d) (d' := d).
  - rewrite length_map, length_seq. reflexivity.
  - intros i Hi. rewrite length_map, length_seq in Hi.
    rewrite (nth_indep _ _ (nth 0 l d)) by (rewrite length_map, length_seq; assumption).
    rewrite (map_nth (fun i => nth i l d)). rewrite seq_nth by assumption. reflexivity.
Qed.

(** *** The loop over the population itself *)

Lemma selected_in_spec (j : nat) (selected : list nat) :
  selected_in j selected = true <-> In j selected.
Proof.
  unfold selected_in. rewrite existsb_exists. split.
  - intros (x & Hx & E). apply Nat.eqb_eq in E. subst. assumption.
  - intros H. exists j. split; [assumption|apply Nat.eqb_refl].
Qed.

Lemma selected_in_false (j : nat) (selected : list nat) :
  selected_in j selected = false <-> ~ In j selected.
Proof.
  rewrite <- selected_in_spec. destruct (selected_in j selected); split; congruence.
Qed.

(** A position is left while fewer than [n] are selected. *)
Lemma first_unselected_spec (n : nat) (selected : list nat) :
  List.length selected < n ->
  first_unselected n selected < n
  /\ selected_in (first_unselected n selected) selected = false.
Proof.
  intros Hlen. unfold first_unselected.
  destruct (filter (fun j => negb (selected_in j selected)) (seq 0 n)) as [|x rest] eqn:E.
  - exfalso.
    assert (Hincl : incl (seq 0 n) selected).
    { intros j Hj. apply selected_in_spec.
      destruct (selected_in j selected) eqn:Hsel; [reflexivity|].
      assert (Hin : In j (filter (fun j => negb (selected_in j selected)) (seq 0 n))).
      { apply filter_In. split; [assumption|]. rewrite Hsel. reflexivity. }
      rewrite E in Hin. destruct Hin. }
    apply NoDup_incl_length in Hincl; [|apply seq_NoDup].
    rewrite length_seq in Hincl. lia.
  - assert (Hin : In x (filter (fun j => negb (selected_in j selected)) (seq 0 n))).
    { rewrite E. left. reflexivity. }
    apply filter_In in Hin. destruct Hin as [Hseq Hsel]. apply in_seq in Hseq.
    cbn [hd]. split; [lia|]. apply negb_true_iff. assumption.
Qed.

Lemma redraw_spec (n : nat) (selected ds : list nat) :
  List.length selected < n ->
  fst (redraw n selected ds) < n
  /\ selected_in (fst (redraw n selected ds)) selected = false.
Proof.
  intros Hlen. induction ds as [|d rest IH]; cbn [redraw].
  - apply first_unselected_spec. assumption.
  - destruct (selected_in (d mod n) selected) eqn:Hsel; [assumption|].
    cbn [fst]. split; [apply Nat.mod_upper_bound; lia|assumption].
Qed.

(** The positions are [k] distinct positions below [n], none of them
    selected before. *)
Lemma rejected_from_spec (n k : nat) :
  forall (selected ds : list nat),
    k + List.length selected <= n ->
    let picked := rejected_from n selected k ds in
    List.length picked = k
    /\ NoDup picked
    /\ Forall (fun i => i < n) picked
    /\ forall i, In i picked -> ~ In i selected.
Proof.
  induction k as [|k IH]; intros selected ds Hk; cbn [rejected_from].
  - repeat split; [constructor|constructor|intros i []].
  - cbv zeta. set (j := fst (redraw n selected ds)).
    destruct (@redraw_spec n selected ds) as [Hj Hsel]; [lia|]. fold j in Hj, Hsel.
    destruct (IH (j :: selected) (snd (redraw n selected ds))) as (Hlen & Hnd & Hlt & Hnew).
    { cbn [List.length]. lia. }
    split; [cbn; rewrite Hlen; reflexivity|]. split; [|split].
    + constructor; [|assumption]. intros Hin. apply Hnew in Hin. apply Hin. left. reflexivity.
    + constructor; assumption.
    + intros i [<-|Hi]; [apply selected_in_false; assumption|].
      intros Hin. apply (Hnew i Hi). right. assumption.
Qed.




Lemma reject_loop_run {A} (population : list A) (d : A) (k : nat) :
  forall (selected : list nat) (w : World),
    k + List.length selected <= List.length population ->
    reject_loop population (List.length population) selected k w
    = (Ok (map (fun i => nth i population d)
             (rejected_from (List.length population) selected k (draws w))),
       {| replies := replies w;
          draws := left_by_rejection (List.length population) selected k (draws w);
          finished := finished w; sent := sent w |}).
Proof.
  induction k as [|k IH]; intros selected w Hk;
    cbn [reject_loop rejected_from left_by_rejection].
  - destruct w; reflexivity.
  - unfold bind at 1, draw_unselected.
    destruct (@redraw_spec (List.length population) selected (draws w)) as [Hj _]; [lia|].
    rewrite (nth_error_nth' population d Hj).
    unfold bind. rewrite IH by (cbn [List.length]; lia).
    cbn [draws replies finished sent map]. reflexivity.
Qed.

(** [random.sample] on a population of [n] for [0 <= k <= n]: the members at
    the positions selected. *)
Lemma random_sample_run {A} (population : list A) (d : A) (k : Z) (w : World) :
  (0 <= k <= Z.of_nat (List.length population))%Z ->
  random_sample population k w
  = (Ok (map (fun i => nth i population d)
           (positions (List.length population) (Z.to_nat k) (draws w))),
     {| replies := replies w;
        draws := undrawn (List.length population) (Z.to_nat k) (draws w);
        finished := finished w; sent := sent w |}).
Proof.
  intros Hk. unfold random_sample, positions, undrawn.
  replace ((0 <=? k)%Z && (k <=? Z.of_nat (List.length population))%Z) with true
    by (symmetry; apply andb_true_iff; split; apply Z.leb_le; lia).
  destruct (List.length population <=? setsize (Z.to_nat k))%nat.
  - rewrite sample_loop_run by lia.
    rewrite <- sample_from_map, map_nth_seq. reflexivity.
  - apply reject_loop_run. cbn [List.length]. lia.
Qed.

Lemma random_sample_negative {A} (population : list A) (k : Z) (w : World) :
  (k < 0)%Z ->
  random_sample population k w
  = (Raise (ValueError (Lit "Sample larger than population or is negative")), w).
Proof.
  intros Hk. unfold random_sample.
  replace (0 <=? k)%Z with false by (symmetry; apply Z.leb_gt; assumption).
  reflexivity.
Qed.

(** The positions are [k] distinct positions below [n]. *)
Lemma positions_spec (n k : nat) (ds : list nat) :
  k <= n ->
  List.length (positions n k ds) = k
  /\ NoDup (positions n k ds)
  /\ Forall (fun i => i < n) (positions n k ds).
Proof.
  intros Hk. unfold positions. destruct (n <=? setsize k)%nat.
  - destruct (@sample_from_spec nat k (seq 0 n) n ds) as (Hlen & Hnd & Hin).
    { apply distinct_below_seq. }
    { assumption. }
    { rewrite length_seq. lia. }
    split; [assumption|]. split; [assumption|].
    apply Forall_forall. intros i Hi. apply among_seq, Hin, Hi.
  - destruct (@rejected_from_spec n k [] ds) as (Hlen & Hnd & Hlt & _).
    { cbn [List.length]. lia. }
    auto.
Qed.



(** The two loops on the same draws: of 21 members the second draw 3 is the
    member moved into the place of the first; of 22 members it is drawn
    again, and 7 is taken. *)
Lemma positions_examples :
  setsize 2 = 21 /\ setsize 6 = 85 /\ setsize 22 = 277
  /\ positions 21 2 [3; 3; 7] = [3; 20] /\ undrawn 21 2 [3; 3; 7] = [7]
  /\ positions 22 2 [3; 3; 7] = [3; 7] /\ undrawn 22 2 [3; 3; 7] = [].
Proof. repeat split; reflexivity. Qed.

(** ** Match generation *)

Section Creation.
Variable repr : json -> string.
Variables (murl : string) (pool_id : json) (user_id : UUID).


Lemma create_match_run (member : json) (w : World) :
  is_dict member = true ->
  create_match repr murl pool_id user_id member w
  = (Ok (created_by (hd_error (replies w))),
     {| replies := tl (replies w); draws := draws w; finished := finished w;
        sent := sent w ++ [match_request repr murl pool_id user_id member] |}).
Proof.
  destruct member; try discriminate. intros _.
  unfold create_match, match_request, peer_id, try_except, bind, lift, requests_post,
    requests_request, raise_for_status, json_of, created_by, ok.
  cbn [py_get].
  destruct (replies w) as [|[r| |] rest]; cbn; try reflexivity.
  destruct (is_error_status (status_code r)); cbn; [reflexivity|].
  destruct (body r); reflexivity.
Qed.

Lemma submit_all_run (selected : list json) :
  forall w : World,
    Forall (fun m => is_dict m = true) selected ->
    submit_all (map (create_match repr murl pool_id user_id) selected) w
    = (Ok (map Ok (values_of (List.length selected) (replies w))),
       {| replies := skipn (List.length selected) (replies w); draws := draws w;
          finished := finished w;
          sent := sent w ++ map (match_request repr murl pool_id user_id) selected |}).
Proof.
  induction selected as [|member rest IH]; intros w Hdict; cbn [map submit_all].
  - cbn. rewrite app_nil_r. destruct w; reflexivity.
  - inversion Hdict as [|? ? Hm Hrest]; subst.
    unfold bind at 1, submit. rewrite create_match_run by assumption.
    unfold bind at 1. rewrite IH by assumption.
    cbn [replies draws finished sent List.length values_of map ret].
    unfold ret. f_equal. f_equal.
    + destruct (replies w); cbn [tl skipn]; [apply skipn_nil|reflexivity].
    + rewrite <- app_assoc. reflexivity.
Qed.

End Creation.

Lemma remove_at_length {A} (i : nat) (l : list A) :
  i < List.length l -> List.length (remove_at i l) = List.length l - 1.
Proof.
  intros Hi. unfold remove_at. rewrite length_app, length_firstn, length_skipn. lia.
Qed.

Lemma remove_at_perm {A} (i : nat) (l : list A) (d : A) :
  i < List.length l -> Permutation (nth i l d :: remove_at i l) l.
Proof.
  revert i. induction l as [|h t IH]; intros [|i] Hi; cbn in Hi; try lia.
  - reflexivity.
  - unfold remove_at in *. cbn [nth firstn skipn app].
    etransitivity; [apply perm_swap|]. constructor. apply IH. lia.
Qed.

Lemma completion_perm {A} (n : nat) :
  forall (order : list nat) (pending : list A),
    List.length pending = n -> Permutation (completion order pending n) pending.
Proof.
  induction n as [|n IH]; intros order pending Hlen.
  - destruct pending; [constructor|discriminate].
  - destruct pending as [|x rest]; [discriminate|]. cbn [completion].
    set (i := hd 0 order mod List.length (x :: rest)).
    assert (Hi : i < List.length (x :: rest)).
    { apply Nat.mod_upper_bound. discriminate. }
    etransitivity; [|apply remove_at_perm with (i := i) (d := x); assumption].
    constructor. apply IH. rewrite remove_at_length by assumption. cbn in *. lia.
Qed.

Lemma completion_map {A B} (f : A -> B) (n : nat) :
  forall (order : list nat) (pending : list A),
    completion order (map f pending) n = map f (completion order pending n).
Proof.
  induction n as [|n IH]; intros order pending; [reflexivity|].
  destruct pending as [|x rest]; [reflexivity|].
  cbn [completion map].
  change (f x :: map f rest) with (map f (x :: rest)).
  rewrite length_map, map_nth. unfold remove_at.
  rewrite firstn_map, skipn_map, <- map_app, IH. reflexivity.
Qed.

Section Gathering.
Variable repr : json -> string.
Variable Match : Type.
Variable MatchGet : list (string * json) -> option Match.

Lemma collect_created_run (values : list json) :
  forall (created : list json) (w : World),
    collect_created (map Ok values) created w = (Ok (created ++ filter truthy values), w).
Proof.
  induction values as [|v rest IH]; intros created w; cbn [map collect_created filter].
  - rewrite app_nil_r. reflexivity.
  - unfold bind, lift. rewrite IH. destruct (truthy v).
    + rewrite <- app_assoc. reflexivity.
    + reflexivity.
Qed.

Lemma create_matches_run (murl : string) (pool_id : json) (user_id : UUID)
    (selected : list json) (w : World) :
  Forall (fun m => is_dict m = true) selected ->
  create_matches repr murl pool_id user_id selected w
  = (Ok (gathered (finished w) (List.length selected) (replies w)),
     {| replies := skipn (List.length selected) (replies w); draws := draws w;
        finished := skipn (List.length selected) (finished w);
        sent := sent w ++ map (match_request repr murl pool_id user_id) selected |}).
Proof.
  intros Hdict. unfold create_matches, bind at 1.
  rewrite submit_all_run by assumption.
  unfold bind at 1, as_completed. cbn [replies draws finished sent].
  rewrite completion_map, collect_created_run.
  rewrite !length_map.
  assert (Hlen : forall n rs, List.length (values_of n rs) = n).
  { induction n; intros rs; cbn; [reflexivity|]. rewrite IHn. reflexivity. }
  rewrite Hlen. reflexivity.
Qed.

End Gathering.

Lemma try_except_Ok_holds {A} (body : M A) (handler : exn -> option (M A)) (w : World)
    (a : A) :
  fst (body w) = Ok a -> fst (try_except body handler w) = Ok a.
Proof.
  unfold try_except. destruct (body w) as [[a'|e] w1]; [trivial|discriminate].
Qed.

Lemma map_result_length {A B} (f : A -> Result B) (l : list A) (l' : list B) :
  map_result f l = Ok l' -> List.length l' = List.length l.
Proof.
  revert l'. induction l as [|x rest IH]; intros l' H; cbn in H.
  - injection H as <-. reflexivity.
  - destruct (f x); [|discriminate].
    destruct (map_result f rest) as [ys|]; [|discriminate].
    injection H as <-. cbn. rewrite (IH ys eq_refl). reflexivity.
Qed.

Lemma map_result_In {A B} (f : A -> Result B) (l : list A) (l' : list B) :
  map_result f l = Ok l' -> forall y, In y l' -> exists x, In x l /\ f x = Ok y.
Proof.
  revert l'. induction l as [|x rest IH]; intros l' H y Hy; cbn in H.
  - injection H as <-. destruct Hy.
  - destruct (f x) as [y0|] eqn:Ex; [|discriminate].
    destruct (map_result f rest) as [ys|]; [|discriminate].
    injection H as <-. destruct Hy as [<-|Hy].
    + exists x. split; [left; reflexivity|assumption].
    + destruct (IH ys eq_refl y Hy) as (x' & Hin & Hx'). exists x'.
      split; [right; assumption|assumption].
Qed.

Lemma values_of_length (n : nat) : forall rs, List.length (values_of n rs) = n.
Proof. induction n as [|n IH]; intros rs; cbn; [reflexivity|]. rewrite IH. reflexivity. Qed.




(** A result the block gathers is the body of the reply to one of the
    calls, and that reply is no error. *)
Lemma values_of_nth (n : nat) :
  forall (rs : list Reply) (v : json),
    In v (values_of n rs) -> truthy v = true ->
    exists i r,
      i < n /\ nth_error rs i = Some (Answered r) /\ ok r = true /\ body r = Some v.
Proof.
  induction n as [|n IH]; intros rs v Hin Hv; [destruct Hin|].
  cbn in Hin. destruct Hin as [Hhd|Htl].
  - destruct rs as [|[r| |] rest]; cbn in Hhd; try (subst v; discriminate).
    destruct (ok r) eqn:Hok; [|subst v; discriminate].
    destruct (body r) as [b|] eqn:Hb; [|subst v; discriminate].
    subst b. exists 0, r. repeat split; trivial. lia.
  - destruct (IH (tl rs) v Htl Hv) as (i & r & Hi & Hr & Hok & Hb).
    exists (S i), r. repeat split; trivial; [lia|].
    destruct rs; [destruct i; discriminate Hr|exact Hr].
Qed.

Lemma gathered_nth (order : list nat) (n : nat) (rs : list Reply) (v : json) :
  In v (gathered order n rs) ->
  truthy v = true
  /\ exists i r,
       i < n /\ nth_error rs i = Some (Answered r) /\ ok r = true /\ body r = Some v.
Proof.
  unfold gathered. intros Hin. apply filter_In in Hin. destruct Hin as [Hin Hv].
  split; [assumption|]. apply values_of_nth; [|assumption].
  eapply Permutation_in; [|eassumption].
  apply completion_perm, values_of_length.
Qed.

(** What the block gathers are the results that are true, each once. *)
Lemma gathered_perm (order : list nat) (n : nat) (rs : list Reply) :
  Permutation (gathered order n rs) (filter truthy (values_of n rs)).
Proof.
  unfold gathered.
  assert (Hfilter : forall l l' : list json,
             Permutation l l' -> Permutation (filter truthy l) (filter truthy l')).
  { induction 1; cbn; repeat destruct (truthy _); eauto using Permutation. }
  apply Hfilter, completion_perm, values_of_length.
Qed.



Lemma is_other_true (user_id : UUID) (member : json) :
  is_other user_id member = Ok true ->
  is_dict member = true /\ py_ne_str (peer_id member) (str user_id) = true.
Proof.
  unfold is_other, peer_id. destruct member; cbn; try discriminate.
  intros [= H]. split; [reflexivity|assumption].
Qed.


(** When the filter goes through, the members are dicts and the others are
    the members whose [user_id] is not the text of the user's id. *)
Lemma others_are_filtered (user_id : UUID) (members : list json) :
  forall others,
    filter_result (is_other user_id) members = Ok others ->
    others = filter (fun m => py_ne_str (peer_id m) (str user_id)) members.
Proof.
  induction members as [|m rest IH]; intros others H; cbn in H.
  - injection H as <-. reflexivity.
  - destruct (is_other user_id m) as [b|] eqn:Hm; [|discriminate].
    destruct (filter_result (is_other user_id) rest) as [rest'|]; [|discriminate].
    injection H as <-. cbn [filter]. rewrite <- (IH rest' eq_refl).
    assert (Hb : py_ne_str (peer_id m) (str user_id) = b).
    { unfold is_other, peer_id in *. destruct m; cbn in *; congruence. }
    rewrite Hb. reflexivity.
Qed.


Section Matching.
Variable repr : json -> string.
Variable Match : Type.
Variable MatchGet : list (string * json) -> option Match.
Variables (user_id : UUID) (murl : string) (pool_id : json) (max_matches : Z).

Lemma match_with_run (peers : list json) (w : World) :
  (0 <= max_matches)%Z ->
  Forall (fun m => is_dict m = true) peers ->
  let n := List.length peers in
  let k := sample_size max_matches n in
  let picked := positions n k (draws w) in
  match_with repr MatchGet user_id murl pool_id max_matches peers w
  = (match map_result (validate_match MatchGet) (gathered (finished w) k (replies w)) with
     | Ok ms =>
         Ok (match peers with
             | [] => nobody Match pool_id
             | _ :: _ => generated user_id pool_id ms
             end)
     | Raise e => Raise e
     end,
     {| replies := skipn k (replies w); draws := undrawn n k (draws w);
        finished := skipn k (finished w);
        sent := sent w
                  ++ map (fun i => match_request repr murl pool_id user_id (nth i peers JNull))
                       picked |}).
Proof.
  intros Hmax Hdict. destruct peers as [|first others]; intros n k picked.
  - assert (Hk0 : k = 0) by (unfold k, sample_size, n; cbn [List.length]; lia).
    unfold picked. rewrite Hk0. cbn. rewrite app_nil_r. destruct w; reflexivity.
  - unfold match_with. cbv iota.
    set (peers := first :: others) in *.
    assert (Hn : 0 < n) by (unfold n, peers; cbn; lia).
    assert (Hk : (0 <= Z.min max_matches (Z.of_nat (List.length peers))
                  <= Z.of_nat (List.length peers))%Z) by (fold n; lia).
    assert (Hkn : k <= n) by (unfold k, sample_size; lia).
    destruct (positions_spec (draws w) Hkn) as (Hlen & _ & Hlt).
    fold picked in Hlen, Hlt.
    unfold bind at 1. rewrite (random_sample_run peers first w Hk).
    change (Z.to_nat (Z.min max_matches (Z.of_nat (List.length peers)))) with k.
    change (positions (List.length peers) k (draws w)) with picked.
    assert (Hselected : Forall (fun m => is_dict m = true)
                          (map (fun i => nth i peers first) picked)).
    { apply Forall_forall. intros m Hm. apply in_map_iff in Hm.
      destruct Hm as (i & <- & Hi). rewrite Forall_forall in Hdict, Hlt.
      apply Hdict, nth_In, Hlt, Hi. }
    unfold bind at 1. rewrite create_matches_run by assumption.
    cbn [replies draws finished sent]. rewrite !length_map, Hlen.
    unfold bind, lift, ret.
    assert (Hreq : map (match_request repr murl pool_id user_id)
                     (map (fun i => nth i peers first) picked)
                   = map (fun i => match_request repr murl pool_id user_id (nth i peers JNull))
                       picked).
    { rewrite map_map. apply map_ext_in. intros i Hi. f_equal.
      apply nth_indep. rewrite Forall_forall in Hlt. apply Hlt, Hi. }
    rewrite Hreq.
    destruct (map_result (validate_match MatchGet) (gathered (finished w) k (replies w)));
      reflexivity.
Qed.

End Matching.

Section Generation.
Variable repr : json -> string.
Variable Match : Type.
Variable MatchGet : list (string * json) -> option Match.
Variables (user_id : UUID) (murl purl : string) (max_matches : Z).

Lemma pool_and_others_sends :
  sends (fun _ => True) (pool_and_others repr user_id purl).
Proof.
  unfold pool_and_others. sends_auto; try exact I.
  apply sends_weaken with (P := timed); [trivial|]. apply get_user_pool_timed.
Qed.

Lemma requests_request_Ok (rq : Request) (w w' : World) (r : Response) :
  requests_request rq w = (Ok r, w') -> In (Answered r) (replies w).
Proof.
  unfold requests_request. destruct (replies w) as [|[r'| |] rest]; try discriminate.
  intros [= -> _]. left. reflexivity.
Qed.

(** What resolving the pool and the other members went through: the
    listing was answered with [members], and the others are the members
    that pass the test of the filter. *)
Lemma pool_and_others_Ok (w w2 : World) (pool_id : json) (peers : list json)
    (H : pool_and_others repr user_id purl w = (Ok (pool_id, peers), w2)) :
  (exists r listing members,
     In (Answered r) (replies w) /\ ok r = true /\ body r = Some listing
     /\ py_iter listing = Ok members
     /\ peers = filter (fun m => py_ne_str (peer_id m) (str user_id)) members
     /\ forall m, In m peers <-> In m members /\ is_other user_id m = Ok true)
  /\ (forall x, In x (replies w2) -> In x (replies w)).
Proof.
  split.
  - unfold pool_and_others in H.
    apply bind_Ok_run in H. destruct H as (up & w1 & Hpool & H).
    destruct (negb (truthy (UserPool.pool_id up))); [discriminate|].
    apply bind_Ok_run in H. destruct H as (r & wa & Hr & H).
    apply bind_Ok_run in H. destruct H as (? & wb & Hstatus & H).
    apply bind_Ok_run in H. destruct H as (pm & wc & Hpm & H).
    apply bind_Ok_run in H. destruct H as (members & wd & Hiter & H).
    apply bind_Ok_run in H. destruct H as (others & we & Hfilter & H).
    injection H as _ <- _. unfold lift in Hfilter, Hiter.
    injection Hfilter as Hfilter _. injection Hiter as Hiter _.
    exists r, pm, members.
    split; [|split; [|split; [|split; [assumption|split]]]].
    + apply requests_request_Ok in Hr.
      destruct (get_user_pool_timed repr user_id purl w) as (new & n & _ & _ & R).
      rewrite Hpool in R. cbn [snd] in R. rewrite R in Hr. eapply In_skipn, Hr.
    + unfold raise_for_status in Hstatus. unfold ok.
      destruct (is_error_status (status_code r)); [discriminate Hstatus|reflexivity].
    + unfold json_of in Hpm. destruct (body r) as [v|]; [|discriminate Hpm].
      cbv [ret] in Hpm. congruence.
    + apply others_are_filtered. assumption.
    + intros m. eapply filter_result_In. eassumption.
  - destruct (pool_and_others_sends w) as (new & n & _ & _ & R).
    rewrite H in R. cbn [snd] in R. rewrite R. apply In_skipn.
Qed.

Lemma generate_handler_raises :
  raises (fun e : exn =>
            if is_ValueError e then Some (raise (A := Generated.t Match) e)
            else if is_RequestException e then Some (communication_error e)
            else None).
Proof. raises_auto. Qed.

(** The run of match generation once the pool and the other members are
    resolved. *)
Lemma generate_resolved (w w2 : World) (pool_id : json) (peers : list json)
    (H : pool_and_others repr user_id purl w = (Ok (pool_id, peers), w2)) :
  let run := generate_matches_for_user_service repr MatchGet user_id murl purl
               max_matches w in
  let rest := match_with repr MatchGet user_id murl pool_id max_matches peers w2 in
  snd run = snd rest
  /\ (forall res, fst run = Ok res <-> fst rest = Ok res).
Proof.
  intros run rest. unfold run, generate_matches_for_user_service. split.
  - rewrite try_except_world by apply generate_handler_raises.
    unfold bind. rewrite H. reflexivity.
  - intros res. split.
    + intros Hres. apply try_except_Ok in Hres; [|apply generate_handler_raises].
      unfold bind in Hres. rewrite H in Hres. exact Hres.
    + intros Hres. apply try_except_Ok_holds. unfold bind. rewrite H. exact Hres.
Qed.

Lemma generate_unresolved (w w2 : World) (e : exn)
    (H : pool_and_others repr user_id purl w = (Raise e, w2)) :
  exists e', fst (generate_matches_for_user_service repr MatchGet user_id murl purl
                    max_matches w) = Raise e'.
Proof.
  unfold generate_matches_for_user_service, try_except, bind. rewrite H.
  destruct (is_ValueError e); [eexists; reflexivity|].
  destruct (is_RequestException e); eexists; reflexivity.
Qed.




(** A run that resolves the pool and the other members has made three
    calls, all answered, and nothing else. *)
Lemma pool_and_others_world (w w2 : World) (pool_id : json) (peers : list json)
    (H : pool_and_others repr user_id purl w = (Ok (pool_id, peers), w2)) :
  exists asked : json,
    w2 = after_call (members_listing_request purl (py_str repr pool_id))
           (after_call (pool_request purl (py_str repr asked))
              (after_call (membership_lookup_request purl user_id) w)).
Proof.
  unfold pool_and_others in H.
  apply bind_Ok_run in H. destruct H as (found & w1 & Hpool & H).
  apply pool_lookup_Ok in Hpool. destruct Hpool as (asked & r1 & r2 & rest & Hreplies & ->).
  destruct (negb (truthy (UserPool.pool_id found))); [discriminate H|].
  unfold requests_get in H. rewrite bind_request in H.
  destruct (hd_error _) as [[r3| |]|]; try discriminate H.
  rewrite bind_status in H. destruct (is_error_status (status_code r3)); [discriminate H|].
  rewrite bind_json in H. destruct (body r3) as [listing|]; [|discriminate H].
  rewrite bind_lift in H. destruct (py_iter listing) as [members|]; [|discriminate H].
  rewrite bind_lift in H.
  destruct (filter_result (is_other user_id) members) as [kept|]; [|discriminate H].
  injection H as <- _ <-. exists asked. reflexivity.
Qed.

(** The [i]-th creation call of a run: the request at its place in the
    log, for a member that was selected. *)
Lemma creation_call_sent (log : list Request) (pool_id : json) (peers : list json)
    (picked : list nat) (i : nat) :
  Forall (fun j => j < List.length peers) picked ->
  i < List.length picked ->
  exists member,
    In member peers
    /\ nth_error (log ++ map (fun j => match_request repr murl pool_id user_id
                                         (nth j peers JNull)) picked)
         (List.length log + i)
       = Some (match_request repr murl pool_id user_id member).
Proof.
  intros Hlt Hi. exists (nth (nth i picked 0) peers JNull). split.
  - apply nth_In. rewrite Forall_forall in Hlt. apply Hlt, nth_In, Hi.
  - rewrite nth_error_app2 by lia.
    replace (List.length log + i - List.length log) with i by lia.
    rewrite nth_error_map, (nth_error_nth' picked 0 Hi). reflexivity.
Qed.

(** C9. When match generation returns, [matches_created] is the length of
    [matches], in the branch with no other member and in the creation branch
    alike.  The run has resolved the pool and the other members with three
    calls and then made one creation call per selected member; [matches] is
    the validated list of the results of these calls that are true, in the
    order of completion.  So every match of the list is the validated body of
    the reply to one of the creation calls of the run, sent for one of the
    other members, and this reply had no error status; and the list has as
    many matches as there are such calls. *)
Theorem generate_matches_count :
  forall (w : World) (res : Generated.t Match),
    let run := generate_matches_for_user_service repr MatchGet user_id murl purl
                 max_matches w in
    fst run = Ok res ->
    Generated.matches_created res = Z.of_nat (List.length (Generated.matches res))
    /\ exists peers : list json,
         let k := sample_size max_matches (List.length peers) in
         let answers := skipn 3 (replies w) in
         fst (pool_and_others repr user_id purl w) = Ok (Generated.pool_id res, peers)
         /\ (peers = [] -> res = nobody Match (Generated.pool_id res))
         /\ List.length (sent (snd run)) = List.length (sent w) + 3 + k
         /\ map_result (validate_match MatchGet) (gathered (finished w) k answers)
            = Ok (Generated.matches res)
         /\ List.length (Generated.matches res)
            = List.length (filter truthy (values_of k answers))
         /\ Forall
              (fun m =>
                 exists i member r b,
                   i < k
                   /\ In member peers
                   /\ nth_error (sent (snd run)) (List.length (sent w) + 3 + i)
                      = Some (match_request repr murl (Generated.pool_id res) user_id member)
                   /\ nth_error answers i = Some (Answered r)
                   /\ ok r = true /\ body r = Some b /\ truthy b = true
                   /\ validate_match MatchGet b = Ok m)
              (Generated.matches res).
Proof.
  intros w res run Hres.
  destruct (pool_and_others repr user_id purl w) as [[[pool_id peers]|e] w2] eqn:Hprefix.
  2:{ destruct (@generate_unresolved w w2 e Hprefix) as [e' He'].
      unfold run in Hres. congruence. }
  destruct (@pool_and_others_Ok w w2 pool_id peers Hprefix)
    as [(_ & _ & members & _ & _ & _ & _ & _ & Hothers) _].
  destruct (@pool_and_others_world w w2 pool_id peers Hprefix) as [asked Hw2].
  assert (Hlog : List.length (sent w2) = List.length (sent w) + 3).
  { rewrite Hw2. cbn [after_call sent]. rewrite !length_app. cbn [List.length]. lia. }
  assert (Hanswers : replies w2 = skipn 3 (replies w)).
  { rewrite Hw2, !after_call_replies. destruct (replies w) as [|? [|? [|? ?]]]; reflexivity. }
  assert (Horder : finished w2 = finished w) by (rewrite Hw2; reflexivity).
  destruct (@generate_resolved w w2 pool_id peers Hprefix) as [Hworld Hresult].
  fold run in Hworld, Hresult. apply Hresult in Hres. clear Hresult.
  destruct peers as [|first others].
  - injection Hres as <-. split; [reflexivity|]. exists [].
    assert (Hk : sample_size max_matches 0 = 0) by (unfold sample_size; lia).
    cbn [List.length]. cbv zeta. rewrite Hk, Hworld. cbn [snd match_with ret].
    cbn [nobody Generated.pool_id Generated.matches List.length].
    repeat split; trivial. lia.
  - destruct (Z.leb_spec 0 max_matches) as [Hmax|Hmax].
    2:{ unfold match_with, bind in Hres. rewrite random_sample_negative in Hres by lia.
        discriminate. }
    assert (Hdict : Forall (fun m => is_dict m = true) (first :: others)).
    { apply Forall_forall. intros m Hm. apply Hothers in Hm.
      destruct Hm as [_ Hm]. apply is_other_true in Hm. tauto. }
    rewrite match_with_run in Hres, Hworld by assumption.
    cbn [fst snd] in Hres, Hworld.
    set (peers := first :: others) in *.
    set (k := sample_size max_matches (List.length peers)) in *.
    assert (Hkn : k <= List.length peers) by (unfold k, sample_size; lia).
    destruct (positions_spec (draws w2) Hkn) as (Hlen & _ & Hlt).
    rewrite Hanswers, Horder in Hres.
    destruct (map_result (validate_match MatchGet) _) as [ms|] eqn:Hvalid; [|discriminate].
    injection Hres as <-. split; [reflexivity|]. exists peers.
    cbn [generated Generated.pool_id Generated.matches].
    fold k. cbv zeta. rewrite Hworld. cbn [sent].
    split; [reflexivity|]. split; [discriminate|]. split; [|split; [|split]].
    + rewrite length_app, length_map, Hlen, Hlog. reflexivity.
    + exact Hvalid.
    + rewrite (map_result_length _ _ Hvalid). apply Permutation_length, gathered_perm.
    + apply Forall_forall. intros m Hm.
      destruct (map_result_In _ _ Hvalid m Hm) as (b & Hb & Hbm).
      apply gathered_nth in Hb. destruct Hb as (Htrue & i & r & Hi & Hr & Hok & Hbody).
      destruct (@creation_call_sent (sent w2) pool_id peers
                  (positions (List.length peers) k (draws w2)) i Hlt)
        as (member & Hmember & Hsent); [lia|].
      exists i, member, r, b. rewrite <- Hlog. repeat split; trivial.
Qed.


End Generation.

Section Decisions.
Variable repr : json -> string.
Variables (user_id : UUID) (base_url : string).





End Decisions.

(** ** Partial failures *)

Section Tolerance.
Variable repr : json -> string.
Variable Match : Type.
Variable MatchGet : list (string * json) -> option Match.
Variables (user_id : UUID) (murl purl : string) (max_matches : Z).


End Tolerance.

(** The statement of [generate_matches_count] at the scenario. *)
Lemma generate_matches_count_witness :
  let w := world scenario [] [] in
  let run := generate_matches_for_user_service no_repr any_fields u1 "http://matches"
               "http://pools" 10 w in
  let res := generated u1 (JStr "p1") [[("match_id", JStr (str m1))]] in
  Generated.matches_created res = Z.of_nat (List.length (Generated.matches res))
  /\ exists peers : list json,
       let k := sample_size 10 (List.length peers) in
       let answers := skipn 3 (replies w) in
       fst (pool_and_others no_repr u1 "http://pools" w) = Ok (Generated.pool_id res, peers)
       /\ (peers = [] -> res = nobody _ (Generated.pool_id res))
       /\ List.length (sent (snd run)) = List.length (sent w) + 3 + k
       /\ map_result (validate_match any_fields) (gathered (finished w) k answers)
          = Ok (Generated.matches res)
       /\ List.length (Generated.matches res)
          = List.length (filter truthy (values_of k answers))
       /\ Forall
            (fun m =>
               exists i member r b,
                 i < k
                 /\ In member peers
                 /\ nth_error (sent (snd run)) (List.length (sent w) + 3 + i)
                    = Some (match_request no_repr "http://matches" (Generated.pool_id res)
                              u1 member)
                 /\ nth_error answers i = Some (Answered r)
                 /\ ok r = true /\ body r = Some b /\ truthy b = true
                 /\ validate_match any_fields b = Ok m)
            (Generated.matches res).
Proof.
  exact (@generate_matches_count no_repr _ any_fields u1 "http://matches" "http://pools"
           10 (world scenario [] [])
           (generated u1 (JStr "p1") [[("match_id", JStr (str m1))]]) eq_refl).
Defined.


(** With no other member the run returns the record with no match: [u1]
    alone in the pool [p1]. *)
Lemma generate_matches_alone :
  generate_matches_for_user_service no_repr any_fields u1 "http://matches" "http://pools" 10
    (world (found_p1 [Answered (ok_reply (JList [JDict (membership_of u1)]))]) [] [])
  = (Ok (nobody _ (JStr "p1")),
     {| replies := []; draws := []; finished := [];
        sent := [membership_lookup_request "http://pools" u1;
                 pool_request "http://pools" "p1";
                 members_listing_request "http://pools" "p1"] |}).
Proof. reflexivity. Qed.



(** * Further properties of the service functions and the resources *)

(** ** Single calls *)







(** ** What the operations on JSON values raise *)

Lemma py_len_raises (v : json) (e : exn) : py_len v = Raise e -> e = TypeError.
Proof. destruct v; cbn; congruence. Qed.

Lemma py_get_raises (v : json) (k : string) (d : json) (e : exn) :
  py_get v k d = Raise e -> e = AttributeError.
Proof. destruct v; cbn; congruence. Qed.

Lemma py_item_raises (v : json) (k : string) (e : exn) :
  py_item v k = Raise e -> e = KeyError k \/ e = TypeError.
Proof.
  destruct v; cbn; try (intros [= <-]; auto).
  destruct (dict_get d k); [discriminate|]. intros [= <-]. auto.
Qed.

Lemma py_item0_raises (v : json) (e : exn) :
  py_item0 v = Raise e -> is_data_error e = true.
Proof.
  destruct v as [| | | |s|[|]|]; cbn; try discriminate; try (intros [= <-]; reflexivity).
  destruct (chars s); [|discriminate]. intros [= <-]. reflexivity.
Qed.

Lemma py_iter_raises (v : json) (e : exn) : py_iter v = Raise e -> e = TypeError.
Proof. destruct v; cbn; congruence. Qed.

Lemma py_lt_raises (v : json) (m : Z) (e : exn) : py_lt v m = Raise e -> e = TypeError.
Proof. destruct v; cbn; congruence. Qed.

Ltac data_error H :=
  first [ apply py_len_raises in H; subst
        | apply py_get_raises in H; subst
        | apply py_iter_raises in H; subst
        | apply py_lt_raises in H; subst
        | apply py_item_raises in H; destruct H; subst
        | apply py_item0_raises in H ].

(** ** The pool of a user: failures *)

Section PoolLookupOutcomes.
Variable repr : json -> string.
Variables (purl : string) (user_id : UUID).

(** A str that is not empty has a first character. *)
Lemma chars_length (c : ascii) (s : string) : 0 < List.length (chars (String c s)).
Proof.
  cbn [chars]. destruct (chars s) as [|next rest]; [cbn; lia|].
  destruct (continues s); cbn; lia.
Qed.

(** A str is measured, indexed and visited by characters, whatever bytes
    they take. *)
Lemma str_by_characters :
  py_len (JStr euro) = Ok 1%Z
  /\ py_len (JStr ("a" ++ euro ++ "b")) = Ok 3%Z
  /\ py_item0 (JStr (euro ++ "x")) = Ok (JStr euro)
  /\ py_iter (JStr ("a" ++ euro)) = Ok [JStr "a"; JStr euro].
Proof. repeat split; reflexivity. Qed.

Lemma truthy_len (v : json) (n : Z) :
  truthy v = true -> py_len v = Ok n -> (n =? 0)%Z = false.
Proof.
  intros Hv Hn. apply Z.eqb_neq.
  destruct v as [| | | |s|l|d]; try discriminate; cbn [truthy py_len] in Hv, Hn;
    injection Hn as <-.
  - destruct s as [|c s]; [discriminate|]. pose proof (chars_length c s). lia.
  - destruct l; [discriminate|cbn; lia].
  - destruct d; [discriminate|cbn; lia].
Qed.

(** X3. When the lookup of the membership is answered without an error
    status and its body decodes, [get_user_pool_from_service] raises the
    ValueError of a user with no membership exactly when the body is false
    in Python (the empty list, but null, 0 or the empty object as well): the
    test [len(members) == 0] that follows adds no case.  The pool is then
    not asked for and the resource answers 404. *)
Theorem get_user_pool_not_member_iff :
  forall (w : World) (r : Response) (rest : list Reply) (members : json),
    replies w = Answered r :: rest ->
    ok r = true ->
    body r = Some members ->
    let not_member := ValueError (Lit "User is not a member of any pool") in
    (fst (get_user_pool_from_service repr user_id purl w) = Raise not_member
     <-> truthy members = false)
    /\ (truthy members = false ->
        get_user_pool_from_service repr user_id purl w
        = (Raise not_member, after_call (membership_lookup_request purl user_id) w)
        /\ fst (get_user_pool repr purl user_id w)
           = Raise (HTTPException 404 (str_exn not_member))).
Proof.
  intros w r rest members Hreplies Hok Hbody not_member.
  assert (Hfalse : truthy members = false ->
            get_user_pool_from_service repr user_id purl w
            = (Raise not_member, after_call (membership_lookup_request purl user_id) w)).
  { intros Hm. unfold get_user_pool_from_service, try_except, requests_get.
    rewrite bind_request, Hreplies. cbn [hd_error].
    rewrite bind_status, (ok_status _ Hok), bind_json, Hbody, Hm. reflexivity. }
  split; [split|].
  - intros Hrun. destruct (truthy members) eqn:Hm; [exfalso|reflexivity].
    revert Hrun. unfold get_user_pool_from_service, try_except, requests_get.
    rewrite bind_request, Hreplies. cbn [hd_error].
    rewrite bind_status, (ok_status _ Hok), bind_json, Hbody, Hm. cbn [negb].
    rewrite bind_assoc, bind_lift.
    destruct (py_len members) as [n|e] eqn:Hlen; [|data_error Hlen; discriminate].
    rewrite !bind_ret, (truthy_len _ Hm Hlen), bind_lift.
    destruct (py_item0 members) as [user_member|e] eqn:Hitem.
    2:{ data_error Hitem. destruct e; discriminate. }
    rewrite bind_lift.
    destruct (py_get user_member "pool_id" JNull) as [pool_id|e] eqn:Hpool;
      [|data_error Hpool; discriminate].
    rewrite bind_request.
    destruct (hd_error _) as [[r2| |]|]; try discriminate.
    rewrite bind_status.
    destruct (is_error_status (status_code r2)); [discriminate|].
    rewrite bind_json. destruct (body r2) as [user_pool|]; [|discriminate].
    repeat (rewrite bind_lift;
            match goal with
            | |- context [match ?x with Ok _ => _ | Raise _ => _ end] =>
                let H := fresh "H" in
                destruct x as [?|?] eqn:H; [|data_error H; discriminate]
            end).
    discriminate.
  - intros Hm. rewrite (Hfalse Hm). reflexivity.
  - intros Hm. split; [apply Hfalse, Hm|].
    unfold get_user_pool, try_except. rewrite (Hfalse Hm). reflexivity.
Qed.

End PoolLookupOutcomes.

Section PoolLookupFailures.
Variable repr : json -> string.
Variables (purl : string) (user_id : UUID).

Lemma get_user_pool_raises (w w' : World) (e : exn) :
  get_user_pool_from_service repr user_id purl w = (Raise e, w') ->
  fst (get_user_pool repr purl user_id w)
  = Raise (if is_ValueError e then HTTPException 404 (str_exn e)
           else if is_RuntimeError e then HTTPException 502 (str_exn e)
           else HTTPException 500 (Fmt "Failed to retrieve user pool: " e)).
Proof.
  intros H. unfold get_user_pool, try_except. rewrite H.
  destruct (is_ValueError e); [reflexivity|]. destruct (is_RuntimeError e); reflexivity.
Qed.

(** X4. A call of the pool lookup that fails, by getting no reply or a reply
    with an error status, ends the lookup in RuntimeError around the cause,
    and the resource answers 502; a call whose URL [requests] refuses raises
    an error that is a ValueError, which the lookup raises again as it is,
    and the resource answers 404.  This holds for the lookup of the
    membership, after which the pool is not asked for, and for the call that
    asks for the pool. *)
Theorem get_user_pool_call_failure :
  forall (w : World) (cause : exn),
    let raised :=
      if is_ValueError cause then cause
      else RuntimeError (Fmt "Service communication error: " cause) in
    let answer :=
      HTTPException (if is_ValueError cause then 404 else 502) (str_exn raised) in
    (call_failure (hd_error (replies w)) = Some cause ->
     get_user_pool_from_service repr user_id purl w
     = (Raise raised, after_call (membership_lookup_request purl user_id) w)
     /\ fst (get_user_pool repr purl user_id w) = Raise answer)
    /\ (forall (r1 : Response) (first : list (string * json)) (others : list json)
               (rest : list Reply),
          replies w = Answered r1 :: rest ->
          ok r1 = true ->
          body r1 = Some (JList (JDict first :: others)) ->
          call_failure (hd_error rest) = Some cause ->
          let pool_id := match dict_get first "pool_id" with Some v => v | None => JNull end in
          get_user_pool_from_service repr user_id purl w
          = (Raise raised,
             after_call (pool_request purl (py_str repr pool_id))
               (after_call (membership_lookup_request purl user_id) w))
          /\ fst (get_user_pool repr purl user_id w) = Raise answer)
    /\ (forall reply : option Reply,
          call_failure reply = Some cause ->
          (is_ValueError cause = true <-> reply = Some Invalid)
          /\ (is_ValueError cause = false ->
              is_RequestException cause = true /\ is_RuntimeError raised = true)).
Proof.
  intros w cause raised answer.
  assert (Hclass : forall reply : option Reply,
             call_failure reply = Some cause ->
             (is_ValueError cause = true <-> reply = Some Invalid)
             /\ (is_ValueError cause = false ->
                 is_RequestException cause = true /\ is_RuntimeError raised = true)).
  { intros reply Hfail. unfold call_failure in Hfail. unfold raised.
    destruct reply as [[r| |]|].
    - destruct (is_error_status (status_code r)); [|discriminate].
      injection Hfail as <-. cbn. repeat split; try discriminate; reflexivity.
    - injection Hfail as <-. cbn. repeat split; try discriminate; reflexivity.
    - injection Hfail as <-. cbn. repeat split; try discriminate; reflexivity.
    - injection Hfail as <-. cbn. repeat split; try discriminate; reflexivity. }
  assert (Hhandled : forall w',
             is_RequestException cause = true ->
             try_except (fun _ => (Raise cause, w'))
               (fun e =>
                  if is_ValueError e then Some (raise (A := UserPool.t) e)
                  else if is_RequestException e then Some (communication_error e)
                  else None) w
             = (Raise raised, w')).
  { intros w' Hrq. unfold try_except, raised.
    destruct (is_ValueError cause); [reflexivity|]. rewrite Hrq. reflexivity. }
  assert (Hrequest : forall reply, call_failure reply = Some cause ->
                                   is_RequestException cause = true).
  { intros reply Hfail. unfold call_failure in Hfail. destruct reply as [[r| |]|].
    - destruct (is_error_status (status_code r)); [|discriminate].
      injection Hfail as <-. reflexivity.
    - injection Hfail as <-. reflexivity.
    - injection Hfail as <-. reflexivity.
    - injection Hfail as <-. reflexivity. }
  assert (Hresource : forall w',
             get_user_pool_from_service repr user_id purl w = (Raise raised, w') ->
             is_RequestException cause = true ->
             fst (get_user_pool repr purl user_id w) = Raise answer).
  { intros w' H Hrq. rewrite (get_user_pool_raises _ H). unfold answer, raised.
    destruct (is_ValueError cause) eqn:Hv; [rewrite Hv; reflexivity|reflexivity]. }
  split; [|split; [|exact Hclass]].
  - intros Hfail.
    assert (Hrun : get_user_pool_from_service repr user_id purl w
                   = (Raise raised,
                      after_call (membership_lookup_request purl user_id) w)).
    { rewrite <- (Hhandled _ (Hrequest _ Hfail)).
      unfold get_user_pool_from_service, try_except, requests_get.
      rewrite bind_request. unfold call_failure in Hfail.
      destruct (hd_error (replies w)) as [[r| |]|].
      - rewrite bind_status.
        destruct (is_error_status (status_code r)); [|discriminate].
        injection Hfail as <-. reflexivity.
      - injection Hfail as <-. reflexivity.
      - injection Hfail as <-. reflexivity.
      - injection Hfail as <-. reflexivity. }
    split; [exact Hrun|]. eapply Hresource; [exact Hrun|]. eapply Hrequest, Hfail.
  - intros r1 first others rest Hreplies Hok Hbody Hfail pool_id.
    assert (Hrun : get_user_pool_from_service repr user_id purl w
                   = (Raise raised,
                      after_call (pool_request purl (py_str repr pool_id))
                        (after_call (membership_lookup_request purl user_id) w))).
    { rewrite <- (Hhandled _ (Hrequest _ Hfail)).
      rewrite (pool_lookup_member repr purl user_id w Hreplies Hok Hbody).
      unfold try_except. fold pool_id. unfold call_failure in Hfail.
      destruct (hd_error rest) as [[r| |]|].
      - destruct (is_error_status (status_code r)); [|discriminate].
        injection Hfail as <-. reflexivity.
      - injection Hfail as <-. reflexivity.
      - injection Hfail as <-. reflexivity.
      - injection Hfail as <-. reflexivity. }
    split; [exact Hrun|]. eapply Hresource; [exact Hrun|]. eapply Hrequest, Hfail.
Qed.


(** X6. When both calls of the pool lookup are answered and the pool or the
    membership lacks a field the record is built from with a subscript, the
    lookup raises KeyError for the first such field, in the order [id],
    [name], [joined_at], [user_id]; the error is none of those the lookup
    handles, and the resource answers 500. *)
Theorem get_user_pool_missing_field :
  forall (w : World) (r1 r2 : Response) (rest : list Reply)
         (first pool : list (string * json)) (others : list json) (key : string),
    replies w = Answered r1 :: Answered r2 :: rest ->
    ok r1 = true ->
    body r1 = Some (JList (JDict first :: others)) ->
    ok r2 = true ->
    body r2 = Some (JDict pool) ->
    missing_field pool first = Some key ->
    let pool_id := match dict_get first "pool_id" with Some v => v | None => JNull end in
    get_user_pool_from_service repr user_id purl w
    = (Raise (KeyError key),
       after_call (pool_request purl (py_str repr pool_id))
         (after_call (membership_lookup_request purl user_id) w))
    /\ fst (get_user_pool repr purl user_id w)
       = Raise (HTTPException 500 (Fmt "Failed to retrieve user pool: " (KeyError key))).
Proof.
  intros w r1 r2 rest first pool others key Hreplies Hok1 Hbody1 Hok2 Hbody2 Hmissing
    pool_id.
  assert (Hrun : get_user_pool_from_service repr user_id purl w
                 = (Raise (KeyError key),
                    after_call (pool_request purl (py_str repr pool_id))
                      (after_call (membership_lookup_request purl user_id) w))).
  { rewrite (pool_lookup_member repr purl user_id w Hreplies Hok1 Hbody1).
    unfold try_except. cbn [hd_error]. rewrite (ok_status _ Hok2), Hbody2.
    fold pool_id. unfold missing_field in Hmissing.
    repeat (rewrite bind_lift; cbn [py_item py_get]).
    destruct (dict_get pool "id"); [|injection Hmissing as <-; reflexivity].
    repeat (rewrite bind_lift; cbn [py_item py_get]).
    destruct (dict_get pool "name"); [|injection Hmissing as <-; reflexivity].
    repeat (rewrite bind_lift; cbn [py_item py_get]).
    destruct (dict_get first "joined_at"); [|injection Hmissing as <-; reflexivity].
    repeat (rewrite bind_lift; cbn [py_item py_get]).
    destruct (dict_get first "user_id"); [discriminate|injection Hmissing as <-].
    reflexivity. }
  split; [exact Hrun|]. rewrite (get_user_pool_raises _ Hrun). reflexivity.
Qed.

End PoolLookupFailures.

(** ** The callers of the pool lookup *)

Section Callers.
Variable repr : json -> string.
Variable Match : Type.
Variable MatchGet : list (string * json) -> option Match.
Variables (user_id : UUID) (murl purl : string) (max_matches : Z).
Variables (coord_x coord_y : option Q).

(** What the pool lookup raises is a ValueError or no RequestException:
    the errors of [requests] do not leave it as they are. *)
Lemma pool_lookup_raised (w w1 : World) (e : exn) :
  get_user_pool_from_service repr user_id purl w = (Raise e, w1) ->
  is_ValueError e = true \/ is_RequestException e = false.
Proof.
  unfold get_user_pool_from_service, try_except.
  match goal with |- context [bind ?m ?k w] => destruct (bind m k w) as [[a|e0] w0] end;
    [discriminate|].
  destruct (is_ValueError e0) eqn:Hv; [intros [= <- _]; auto|].
  destruct (is_RequestException e0) eqn:Hr; intros [= <- _]; auto.
Qed.

(** X7. An exception the pool lookup ends with leaves match generation, the
    listing of the pool members and the update of the coordinates as it is,
    and none of the three sends a request after it. *)
Theorem pool_lookup_failure_propagates :
  forall (w w1 : World) (e : exn),
    get_user_pool_from_service repr user_id purl w = (Raise e, w1) ->
    generate_matches_for_user_service repr MatchGet user_id murl purl max_matches w
    = (Raise e, w1)
    /\ get_pool_members_from_service repr user_id purl w = (Raise e, w1)
    /\ update_user_pool_coordinates_service repr user_id coord_x coord_y purl w
       = (Raise e, w1).
Proof.
  intros w w1 e H. pose proof (pool_lookup_raised _ H) as Hclass.
  unfold generate_matches_for_user_service, pool_and_others, get_pool_members_from_service,
    update_user_pool_coordinates_service, try_except.
  rewrite !bind_assoc, !(bind_run_raise _ _ _ H).
  destruct (is_ValueError e); [repeat split; reflexivity|].
  destruct Hclass as [Hclass| ->]; [discriminate|]. repeat split; reflexivity.
Qed.

(** X8. A pool found by the lookup whose id is false in Python (null, the
    empty string, 0) counts as no membership: the three callers raise
    ValueError, each with its message, without another request, and their
    resources answer 404. *)
Theorem no_pool_id_is_not_member :
  forall (w w1 : World) (user_pool : UserPool.t),
    get_user_pool_from_service repr user_id purl w = (Ok user_pool, w1) ->
    truthy (UserPool.pool_id user_pool) = false ->
    let not_member := ValueError (Lit "User is not a member of any pool") in
    let add_first :=
      ValueError (Lit "User is not a member of any pool. Add user to a pool first.") in
    generate_matches_for_user_service repr MatchGet user_id murl purl max_matches w
    = (Raise add_first, w1)
    /\ get_pool_members_from_service repr user_id purl w = (Raise not_member, w1)
    /\ update_user_pool_coordinates_service repr user_id coord_x coord_y purl w
       = (Raise not_member, w1)
    /\ fst (generate_matches_for_user repr MatchGet purl murl user_id w)
       = Raise (HTTPException 404 (str_exn add_first))
    /\ fst (get_user_pool_members repr purl user_id w)
       = Raise (HTTPException 404 (str_exn not_member))
    /\ fst (update_user_pool_coordinates repr purl user_id coord_x coord_y w)
       = Raise (HTTPException 404 (str_exn not_member)).
Proof.
  intros w w1 user_pool H Hid not_member add_first.
  assert (Hgenerate :
            generate_matches_for_user_service repr MatchGet user_id murl purl 10 w
            = (Raise add_first, w1)
            /\ generate_matches_for_user_service repr MatchGet user_id murl purl
                 max_matches w
               = (Raise add_first, w1)).
  { unfold generate_matches_for_user_service, pool_and_others, try_except.
    rewrite !bind_assoc, !(bind_run _ _ _ H), Hid. split; reflexivity. }
  assert (Hmembers : get_pool_members_from_service repr user_id purl w
                     = (Raise not_member, w1)).
  { unfold get_pool_members_from_service, try_except. rewrite (bind_run _ _ _ H), Hid.
    reflexivity. }
  assert (Hupdate : update_user_pool_coordinates_service repr user_id coord_x coord_y purl w
                    = (Raise not_member, w1)).
  { unfold update_user_pool_coordinates_service, try_except. rewrite (bind_run _ _ _ H), Hid.
    reflexivity. }
  destruct Hgenerate as [Hten Hgenerate].
  repeat split; trivial.
  - unfold generate_matches_for_user, try_except. rewrite Hten. reflexivity.
  - unfold get_user_pool_members, try_except. rewrite (bind_run_raise _ _ _ Hmembers).
    reflexivity.
  - unfold update_user_pool_coordinates, try_except. rewrite Hupdate. reflexivity.
Qed.

End Callers.

(** ** The members of the pool and the coordinates of a member *)

Section Members.
Variable repr : json -> string.
Variables (user_id : UUID) (purl : string).
Variables (coord_x coord_y : option Q).




End Members.

(** ** The exceptions a run raises *)

Section Throws.
Variable P : exn -> Prop.










End Throws.

Lemma filter_result_raises {A} (f : A -> Result bool) (l : list A) (e : exn) :
  filter_result f l = Raise e -> exists x, In x l /\ f x = Raise e.
Proof.
  induction l as [|x rest IH]; cbn; [discriminate|].
  destruct (f x) as [b|e'] eqn:Hx.
  - destruct (filter_result f rest) as [kept|e']; [discriminate|].
    intros [= <-]. destruct (IH eq_refl) as (y & Hy & Hfy).
    exists y. split; [right; assumption|assumption].
  - intros [= <-]. exists x. split; [left; reflexivity|assumption].
Qed.

Lemma filter_result_Ok {A} (f : A -> Result bool) (l : list A) :
  (forall x, In x l -> exists b, f x = Ok b) -> exists kept, filter_result f l = Ok kept.
Proof.
  induction l as [|x rest IH]; intros H; cbn; [eexists; reflexivity|].
  destruct (H x (or_introl eq_refl)) as [b ->].
  destruct IH as [kept ->]; [intros y Hy; apply H; right; assumption|].
  eexists. reflexivity.
Qed.

Lemma not_full_raises (max_pool_size : Z) (p : json) (e : exn) :
  not_full max_pool_size p = Raise e -> e = TypeError \/ e = AttributeError.
Proof.
  unfold not_full. destruct (py_get p "member_count" (JInt 0)) as [c|e'] eqn:Hget.
  - intros H. data_error H. auto.
  - intros [= <-]. data_error Hget. auto.
Qed.

Lemma malformed_pool_raises (max_pool_size : Z) (p : json) :
  malformed_pool p = true <-> exists e, not_full max_pool_size p = Raise e.
Proof.
  unfold malformed_pool, not_full. destruct p; cbn;
    try (split; [intros _; eexists; reflexivity|reflexivity]).
  destruct (dict_get d "member_count") as [[]|]; cbn;
    try (split; [intros _; eexists; reflexivity|reflexivity]);
    (split; [discriminate|intros [e He]; discriminate]).
Qed.

(** ** Add user to pool: answers that have not the expected shape *)

Section AddOutcomes.
Variable repr : json -> string.
Variables (user_id : UUID) (location : string) (coord_x coord_y : option Q).
Variables (purl : string) (max_pool_size : Z).

(** The run of [add_user_to_pool_service] once the listing is answered with
    a list. *)
Lemma add_user_listed (w : World) (r : Response) (rest : list Reply) (listed : list json) :
  replies w = Answered r :: rest ->
  ok r = true ->
  body r = Some (JList listed) ->
  add_user_to_pool_service repr user_id location coord_x coord_y purl max_pool_size w
  = try_except
      (fun _ =>
         (pools <- lift (filter_result (not_full max_pool_size) listed) ;;
          pool <- match pools with
                  | [] => create_pool location purl
                  | _ :: _ => random_choice pools
                  end ;;
          join_pool repr user_id location coord_x coord_y purl pool)
           (after_call (listing_request purl location) w))
      (fun e =>
         if is_KeyError e
         then Some (raise (RuntimeError (Fmt "Missing expected field in response: " e)))
         else if is_RequestException e then Some (communication_error e)
         else None) w.
Proof.
  intros Hreplies Hok Hbody.
  unfold add_user_to_pool_service, try_except, requests_get.
  rewrite bind_request, Hreplies. cbn [hd_error].
  rewrite bind_status, (ok_status _ Hok), bind_json, Hbody. reflexivity.
Qed.

(** X11. The two checks of the shape of an answer in
    [add_user_to_pool_service]: a listing of the pools that is no list, and
    the answer to the creation of a pool that is no object, end the run in
    RuntimeError with the type found, and no request follows; in the second
    case the pool has been created and the user is not added to it. *)
Theorem add_user_unexpected_format :
  forall (w : World) (r : Response) (rest : list Reply) (pools : json),
    replies w = Answered r :: rest ->
    ok r = true ->
    body r = Some pools ->
    let run :=
      add_user_to_pool_service repr user_id location coord_x coord_y purl max_pool_size w in
    let w1 := after_call (listing_request purl location) w in
    ((forall listed, pools <> JList listed) ->
     run = (Raise (RuntimeError
                     (Lit ("Unexpected response format from pools service: "
                             ++ py_type pools))), w1))
    /\ (forall (listed : list json) (r2 : Response) (rest' : list Reply) (pool : json),
          pools = JList listed ->
          filter_result (not_full max_pool_size) listed = Ok [] ->
          rest = Answered r2 :: rest' ->
          ok r2 = true ->
          body r2 = Some pool ->
          is_dict pool = false ->
          run = (Raise (RuntimeError
                          (Lit ("Unexpected pool response format: " ++ py_type pool))),
                 after_call (creation_request purl location) w1)).
Proof.
  intros w r rest pools Hreplies Hok Hbody run w1. split.
  - intros Hshape. unfold run, add_user_to_pool_service, try_except, requests_get.
    rewrite bind_request, Hreplies. cbn [hd_error].
    rewrite bind_status, (ok_status _ Hok), bind_json, Hbody.
    destruct pools; try reflexivity. exfalso. eapply Hshape. reflexivity.
  - intros listed r2 rest' pool -> Hfilter -> Hok2 Hbody2 Hdict.
    unfold run. rewrite (add_user_listed w Hreplies Hok Hbody).
    unfold try_except. rewrite bind_lift, Hfilter.
    unfold bind. rewrite create_pool_run, after_call_replies, Hreplies. cbn [tl hd_error].
    rewrite (ok_status _ Hok2), Hbody2, Hdict. reflexivity.
Qed.

(** The run of [join_pool] on a pool with no [id]: nothing is sent. *)
Lemma join_pool_without_id (fields : list (string * json)) (w : World) :
  dict_get fields "id" = None ->
  join_pool repr user_id location coord_x coord_y purl (JDict fields) w
  = (Raise (KeyError "id"), w).
Proof.
  intros Hid. unfold join_pool. rewrite bind_lift. cbn [py_item]. rewrite Hid. reflexivity.
Qed.

(** X12. When the pool the user is to be added to has no [id], be it the pool
    just created or the pool drawn among the listed ones, the KeyError of
    [pool["id"]] ends [add_user_to_pool_service] in RuntimeError for the
    missing field, and the request that adds the member is not sent. *)
Theorem add_user_pool_without_id :
  forall (w : World) (r : Response) (rest : list Reply) (listed eligible : list json),
    replies w = Answered r :: rest ->
    ok r = true ->
    body r = Some (JList listed) ->
    filter_result (not_full max_pool_size) listed = Ok eligible ->
    let run :=
      add_user_to_pool_service repr user_id location coord_x coord_y purl max_pool_size w in
    let w1 := after_call (listing_request purl location) w in
    let missing :=
      RuntimeError (Fmt "Missing expected field in response: " (KeyError "id")) in
    match eligible with
    | [] =>
        forall (r2 : Response) (rest' : list Reply) (fields : list (string * json)),
          rest = Answered r2 :: rest' ->
          ok r2 = true ->
          body r2 = Some (JDict fields) ->
          dict_get fields "id" = None ->
          run = (Raise missing, after_call (creation_request purl location) w1)
    | first :: _ =>
        forall fields : list (string * json),
          nth (hd 0 (draws w) mod List.length eligible) eligible first = JDict fields ->
          dict_get fields "id" = None ->
          fst run = Raise missing /\ sent (snd run) = sent w1
    end.
Proof.
  intros w r rest listed eligible Hreplies Hok Hbody Hfilter run w1 missing.
  unfold run. rewrite (add_user_listed w Hreplies Hok Hbody).
  unfold try_except. rewrite bind_lift, Hfilter. fold w1.
  destruct eligible as [|first others].
  - intros r2 rest' fields -> Hok2 Hbody2 Hid.
    unfold bind. rewrite create_pool_run. unfold w1 at 1.
    rewrite after_call_replies, Hreplies. cbn [tl hd_error].
    rewrite (ok_status _ Hok2), Hbody2. cbn [is_dict].
    rewrite (join_pool_without_id _ _ Hid). reflexivity.
  - intros fields Htarget Hid.
    unfold bind. rewrite random_choice_run. change (draws w1) with (draws w).
    rewrite Htarget, (join_pool_without_id _ _ Hid). split; reflexivity.
Qed.

(** X13. A listed pool that is no object, or whose [member_count] is no
    number (null, a string), makes the test of the filter raise: the run of
    [add_user_to_pool_service] ends in TypeError or AttributeError after the
    listing, with nothing else sent.  When every listed pool is an object
    with a number or no [member_count], the filter goes through. *)
Theorem add_user_malformed_pool :
  forall (w : World) (r : Response) (rest : list Reply) (listed : list json),
    replies w = Answered r :: rest ->
    ok r = true ->
    body r = Some (JList listed) ->
    if existsb malformed_pool listed
    then exists e,
           (e = TypeError \/ e = AttributeError)
           /\ add_user_to_pool_service repr user_id location coord_x coord_y purl
                max_pool_size w
              = (Raise e, after_call (listing_request purl location) w)
    else exists eligible, filter_result (not_full max_pool_size) listed = Ok eligible.
Proof.
  intros w r rest listed Hreplies Hok Hbody.
  destruct (existsb malformed_pool listed) eqn:Hbad.
  - apply existsb_exists in Hbad. destruct Hbad as (p & Hp & Hbad).
    apply (malformed_pool_raises max_pool_size) in Hbad. destruct Hbad as [e0 He0].
    destruct (filter_result (not_full max_pool_size) listed) as [eligible|e] eqn:Hfilter.
    + exfalso. pose proof (filter_result_In _ _ Hfilter) as Hin.
      clear - Hfilter Hp He0. revert eligible Hfilter.
      induction listed as [|q l IH]; intros eligible Hfilter; [destruct Hp|].
      cbn in Hfilter. destruct (not_full max_pool_size q) as [b|] eqn:Hq; [|discriminate].
      destruct (filter_result (not_full max_pool_size) l) as [kept|]; [|discriminate].
      destruct Hp as [->|Hp]; [congruence|]. eapply IH; [exact Hp|reflexivity].
    + exists e. split.
      * apply filter_result_raises in Hfilter. destruct Hfilter as (q & _ & Hq).
        eapply not_full_raises, Hq.
      * rewrite (add_user_listed w Hreplies Hok Hbody).
        unfold try_except. rewrite bind_lift, Hfilter.
        apply filter_result_raises in Hfilter. destruct Hfilter as (q & _ & Hq).
        apply not_full_raises in Hq. destruct Hq as [-> | ->]; reflexivity.
  - apply filter_result_Ok. intros p Hp.
    destruct (not_full max_pool_size p) as [b|e] eqn:Hnf; [eexists; reflexivity|].
    assert (Hmal : malformed_pool p = true)
      by (apply (malformed_pool_raises max_pool_size); eexists; exact Hnf).
    assert (Hex : existsb malformed_pool listed = true)
      by (apply existsb_exists; exists p; split; assumption).
    congruence.
Qed.



End AddOutcomes.


Section AddClasses.
Variable repr : json -> string.
Variables (user_id : UUID) (location : string) (coord_x coord_y : option Q).
Variable purl : string.




End AddClasses.

(** ** Match generation: the sample size, the order of completion, the validation *)



Section GenerationOutcomes.
Variable repr : json -> string.
Variable Match : Type.
Variable MatchGet : list (string * json) -> option Match.
Variables (user_id : UUID) (murl purl : string).

(** X16. With a negative [max_matches] and at least one other member,
    [random.sample] is asked for a negative number of members: match
    generation raises its ValueError and sends no creation call. *)
Theorem generate_negative_max :
  forall (max_matches : Z) (w w2 : World) (pool_id : json) (peers : list json),
    pool_and_others repr user_id purl w = (Ok (pool_id, peers), w2) ->
    peers <> [] ->
    (max_matches < 0)%Z ->
    generate_matches_for_user_service repr MatchGet user_id murl purl max_matches w
    = (Raise (ValueError (Lit "Sample larger than population or is negative")), w2).
Proof.
  intros max_matches w w2 pool_id peers H Hpeers Hmax.
  unfold generate_matches_for_user_service, try_except.
  rewrite (bind_run _ _ _ H). cbn [fst snd]. unfold match_with.
  destruct peers as [|first others]; [congruence|].
  unfold bind. rewrite random_sample_negative by lia. reflexivity.
Qed.



End GenerationOutcomes.

(** ** The decisions of a user: the calls, and listings that have not the
       expected shape *)

Section DecisionCalls.
Variable repr : json -> string.
Variables (user_id : UUID) (base_url : string).







End DecisionCalls.

(** ** The methods and the targets of the requests *)

Lemma prefix_refl (s : string) : String.prefix s s = true.
Proof.
  induction s as [|c s IH]; [reflexivity|]. cbn.
  destruct (ascii_dec c c); [assumption|congruence].
Qed.

Lemma prefix_nil (s : string) : String.prefix "" s = true.
Proof. destruct s; reflexivity. Qed.

Lemma prefix_append (a b c : string) :
  String.prefix b c = true -> String.prefix (a ++ b) (a ++ c) = true.
Proof.
  intros H. induction a as [|x a IH]; [assumption|]. cbn.
  destruct (ascii_dec x x); [assumption|congruence].
Qed.

Lemma prefix_append_self (b c : string) : String.prefix b (b ++ c) = true.
Proof.
  induction b as [|x b IH]; [apply prefix_nil|]. cbn.
  destruct (ascii_dec x x); [assumption|congruence].
Qed.

Ltac under_url :=
  unfold under; cbn [url];
  first [ apply prefix_refl
        | apply prefix_append; first [ reflexivity | apply (prefix_append_self "/pools/")
                                     | apply (prefix_append_self "/matches/") ] ].

Ltac uses_method := unfold uses; cbn; auto.

Section Requests.
Variable repr : json -> string.
Variable Match : Type.
Variable MatchGet : list (string * json) -> option Match.
Variables (user_id match_id : UUID) (murl purl location decision : string).
Variables (coord_x coord_y : option Q) (max_pool_size max_matches : Z).

Lemma get_user_pool_requests :
  sends (fun rq => uses [GET] rq /\ under (purl ++ "/pools/") rq)
    (get_user_pool_from_service repr user_id purl).
Proof.
  unfold get_user_pool_from_service. sends_auto; (split; [uses_method|under_url]).
Qed.

Lemma fetch_decisions_requests (matches : list json) :
  forall all_decisions,
    sends (fun rq => uses [GET] rq /\ under (murl ++ "/matches/") rq)
      (fetch_decisions repr user_id murl matches all_decisions).
Proof.
  induction matches as [|match_ rest IH]; intros acc; cbn [fetch_decisions].
  - apply sends_ret.
  - apply sends_bind; [|intros found; apply IH].
    unfold fetch_decision. sends_auto; (split; [uses_method|under_url]).
Qed.

Lemma create_matches_requests (pool_id : json) (selected : list json) :
  sends (fun rq => uses [POST] rq /\ under (murl ++ "/matches/") rq)
    (create_matches repr murl pool_id user_id selected).
Proof.
  unfold create_matches. apply sends_bind.
  - apply sends_submit_all. apply Forall_forall. intros call Hcall.
    apply in_map_iff in Hcall. destruct Hcall as (member & <- & _).
    unfold create_match. sends_auto; (split; [uses_method|under_url]).
  - intros futures. apply sends_bind; [apply sends_as_completed|].
    intros completed. apply collect_created_sends.
Qed.

(** X21. The methods and the targets of the requests of the service
    functions, whatever is answered.  The four functions that read (the
    pool of a user, the matches, the members of the pool, the decisions)
    send GET requests only; the removal sends a DELETE only and the decision
    a POST only; adding a user and generating matches send GET and POST, the
    update of the coordinates GET and PATCH.  Every request for a pool or a
    member goes under [/pools/] of the pools service and every request for a
    match or a decision under [/matches/] of the matches service. *)
Theorem requests_methods_and_targets :
  let pools rq := under (purl ++ "/pools/") rq in
  let matches rq := under (murl ++ "/matches/") rq in
  sends (fun rq => uses [GET] rq /\ pools rq)
    (get_user_pool_from_service repr user_id purl)
  /\ sends (fun rq => uses [GET] rq /\ pools rq)
       (get_pool_members_from_service repr user_id purl)
  /\ sends (fun rq => uses [GET] rq /\ matches rq)
       (get_user_matches_from_service user_id murl)
  /\ sends (fun rq => uses [GET] rq /\ matches rq)
       (get_user_decisions_from_service repr user_id murl)
  /\ sends (fun rq => uses [POST] rq /\ matches rq)
       (submit_decision_for_user_match user_id match_id decision murl)
  /\ sends (fun rq => uses [DELETE] rq /\ pools rq)
       (delete_user_from_pool_service user_id purl)
  /\ sends (fun rq => uses [GET; POST] rq /\ pools rq)
       (add_user_to_pool_service repr user_id location coord_x coord_y purl max_pool_size)
  /\ sends (fun rq => uses [GET; PATCH] rq /\ pools rq)
       (update_user_pool_coordinates_service repr user_id coord_x coord_y purl)
  /\ sends (fun rq => (uses [GET] rq /\ pools rq) \/ (uses [POST] rq /\ matches rq))
       (generate_matches_for_user_service repr MatchGet user_id murl purl max_matches).
Proof.
  intros pools matches. unfold pools, matches.
  repeat match goal with |- _ /\ _ => split end.
  - apply get_user_pool_requests.
  - unfold get_pool_members_from_service. sends_auto; try apply get_user_pool_requests.
    split; [uses_method|under_url].
  - unfold get_user_matches_from_service. sends_auto. split; [uses_method|under_url].
  - unfold get_user_decisions_from_service. sends_auto; try apply fetch_decisions_requests.
    split; [uses_method|under_url].
  - unfold submit_decision_for_user_match. sends_auto. split; [uses_method|under_url].
  - unfold delete_user_from_pool_service. sends_auto. split; [uses_method|under_url].
  - unfold add_user_to_pool_service, create_pool, join_pool.
    sends_auto; (split; [uses_method|under_url]).
  - unfold update_user_pool_coordinates_service. sends_auto.
    + eapply sends_weaken; [|apply get_user_pool_requests].
      intros rq [Hm Hu]. split; [|exact Hu]. unfold uses in *. cbn in *. tauto.
    + split; [uses_method|under_url].
  - unfold generate_matches_for_user_service, pool_and_others, match_with. sends_auto.
    + eapply sends_weaken; [|apply get_user_pool_requests].
      intros rq H. left. exact H.
    + left. split; [uses_method|under_url].
    + eapply sends_weaken; [|apply create_matches_requests].
      intros rq H. right. exact H.
Qed.

End Requests.

(** ** The number of requests *)

Section Calls.

Lemma calls_nothing {A} (k : nat) (m : M A) :
  (forall w, sent (snd (m w)) = sent w) -> calls_at_most k m.
Proof.
  intros H w. exists []. rewrite app_nil_r. split; [apply H|cbn; lia].
Qed.

Lemma calls_silent {A} (k : nat) (m : M A) :
  sends (fun _ => False) m -> calls_at_most k m.
Proof.
  intros H. apply calls_nothing. intros w. destruct (H w) as (new & n & E & F & _).
  destruct new as [|rq new]; [rewrite app_nil_r in E; exact E|].
  inversion F as [|? ? []].
Qed.

Lemma calls_ret {A} (k : nat) (a : A) : calls_at_most k (ret a).
Proof. apply calls_nothing. reflexivity. Qed.

Lemma calls_raise {A} (k : nat) (e : exn) : calls_at_most k (@raise A e).
Proof. apply calls_nothing. reflexivity. Qed.

Lemma calls_lift {A} (k : nat) (r : Result A) : calls_at_most k (lift r).
Proof. apply calls_nothing. reflexivity. Qed.

Lemma calls_raise_for_status (k : nat) (r : Response) :
  calls_at_most k (raise_for_status r).
Proof.
  unfold raise_for_status. destruct (is_error_status (status_code r));
    [apply calls_raise|apply calls_ret].
Qed.

Lemma calls_json_of (k : nat) (r : Response) : calls_at_most k (json_of r).
Proof. unfold json_of. destruct (body r); [apply calls_ret|apply calls_raise]. Qed.

Lemma calls_request (k : nat) (rq : Request) : calls_at_most (S k) (requests_request rq).
Proof.
  intros w. exists [rq]. rewrite requests_request_run. split; [reflexivity|cbn; lia].
Qed.

Lemma calls_weaken {A} (a b : nat) (m : M A) :
  a <= b -> calls_at_most a m -> calls_at_most b m.
Proof.
  intros Hab H w. destruct (H w) as (new & E & L). exists new. split; [assumption|lia].
Qed.

Lemma calls_bind {A B} (a b : nat) (m : M A) (k : A -> M B) :
  calls_at_most a m -> (forall x, calls_at_most b (k x)) ->
  calls_at_most (a + b) (bind m k).
Proof.
  intros Hm Hk w. unfold bind. destruct (Hm w) as (new1 & E1 & L1).
  destruct (m w) as [[x|e] w1]; cbn [snd] in E1.
  - destruct (Hk x w1) as (new2 & E2 & L2). exists (new1 ++ new2).
    rewrite E2, E1, app_assoc, length_app. split; [reflexivity|lia].
  - exists new1. split; [assumption|lia].
Qed.

(** The same, when what follows depends on what [m] returns. *)
Lemma calls_bind_returned {A B} (P : A -> Prop) (a b : nat) (m : M A) (k : A -> M B) :
  calls_at_most a m ->
  (forall w x w1, m w = (Ok x, w1) -> P x) ->
  (forall x, P x -> calls_at_most b (k x)) ->
  calls_at_most (a + b) (bind m k).
Proof.
  intros Hm HP Hk w. unfold bind. destruct (Hm w) as (new1 & E1 & L1).
  destruct (m w) as [[x|e] w1] eqn:Hrun; cbn [snd] in E1.
  - destruct (Hk x (HP w x w1 Hrun) w1) as (new2 & E2 & L2). exists (new1 ++ new2).
    rewrite E2, E1, app_assoc, length_app. split; [reflexivity|lia].
  - exists new1. split; [assumption|lia].
Qed.

Lemma calls_try_except {A} (k : nat) (body : M A) (handler : exn -> option (M A)) :
  calls_at_most k body ->
  (forall e h w, handler e = Some h -> snd (h w) = w) ->
  calls_at_most k (try_except body handler).
Proof.
  intros Hb Hh w. rewrite try_except_same_world by (intros e h w'; apply Hh). apply Hb.
Qed.

End Calls.

Ltac calls_quiet :=
  first [ apply calls_ret | apply calls_raise | apply calls_lift
        | apply calls_raise_for_status | apply calls_json_of ].

Ltac calls_step :=
  match goal with
  | |- calls_at_most (S ?k) (bind (requests_request _) _) =>
      apply (@calls_bind _ _ 1 k); [apply calls_request|intros ?]
  | |- calls_at_most ?k (bind (lift _) _) =>
      apply (@calls_bind _ _ 0 k); [apply calls_lift|intros ?]
  | |- calls_at_most ?k (bind (raise_for_status _) _) =>
      apply (@calls_bind _ _ 0 k); [apply calls_raise_for_status|intros ?]
  | |- calls_at_most ?k (bind (json_of _) _) =>
      apply (@calls_bind _ _ 0 k); [apply calls_json_of|intros ?]
  | |- calls_at_most ?k (bind (ret _) _) =>
      apply (@calls_bind _ _ 0 k); [apply calls_ret|intros ?]
  | |- calls_at_most _ (if ?b then _ else _) => destruct b
  | |- calls_at_most _ (match ?x with _ => _ end) => destruct x
  | |- calls_at_most _ (requests_request _) => apply calls_request
  | |- calls_at_most _ _ => calls_quiet
  end.

Ltac handler_quiet :=
  let e := fresh "e" in let h := fresh "h" in let w := fresh "w" in let H := fresh "H" in
  intros e h w H;
  repeat match type of H with
         | (if ?b then _ else _) = Some _ => destruct b
         | match ?x with _ => _ end = Some _ => destruct x
         end;
  first [ discriminate H
        | injection H as <-;
          repeat match goal with
                 | |- context [if ?b then _ else _] => destruct b
                 end;
          reflexivity ].

Section Budget.
Variable repr : json -> string.
Variable Match : Type.
Variable MatchGet : list (string * json) -> option Match.
Variables (user_id : UUID) (murl purl location : string).
Variables (coord_x coord_y : option Q) (max_pool_size max_matches : Z).

Lemma get_user_pool_calls :
  calls_at_most 2 (get_user_pool_from_service repr user_id purl).
Proof.
  unfold get_user_pool_from_service, requests_get.
  apply calls_try_except; [|handler_quiet].
  calls_step. calls_step. calls_step.
  apply (@calls_bind _ _ 0 1).
  { destruct (negb (truthy _)); [apply calls_ret|].
    apply (@calls_bind _ _ 0 0); [apply calls_lift|intros; apply calls_ret]. }
  intros no_member. destruct no_member; [apply calls_raise|].
  repeat calls_step.
Qed.

Lemma create_pool_calls : calls_at_most 1 (create_pool location purl).
Proof. unfold create_pool, requests_post. repeat calls_step. Qed.

Lemma join_pool_calls (pool : json) :
  calls_at_most 1 (join_pool repr user_id location coord_x coord_y purl pool).
Proof. unfold join_pool, requests_post. repeat calls_step. Qed.

Lemma random_choice_calls {A} (k : nat) (l : list A) : calls_at_most k (random_choice l).
Proof. apply calls_nothing. intros w. destruct l; reflexivity. Qed.

Lemma add_user_calls :
  calls_at_most 3
    (add_user_to_pool_service repr user_id location coord_x coord_y purl max_pool_size).
Proof.
  unfold add_user_to_pool_service, requests_get.
  apply calls_try_except; [|handler_quiet].
  calls_step. calls_step. calls_step.
  destruct x1; try apply calls_raise.
  calls_step. apply (@calls_bind _ _ 1 1); [|intros; apply join_pool_calls].
  destruct x1; [apply create_pool_calls|apply random_choice_calls].
Qed.

Lemma get_pool_members_calls :
  calls_at_most 3 (get_pool_members_from_service repr user_id purl).
Proof.
  unfold get_pool_members_from_service, requests_get.
  apply calls_try_except; [|handler_quiet].
  apply (@calls_bind _ _ 2 1); [apply get_user_pool_calls|intros user_pool].
  repeat calls_step.
Qed.

Lemma update_coordinates_calls :
  calls_at_most 3
    (update_user_pool_coordinates_service repr user_id coord_x coord_y purl).
Proof.
  unfold update_user_pool_coordinates_service, requests_patch.
  apply calls_try_except; [|handler_quiet].
  apply (@calls_bind _ _ 2 1); [apply get_user_pool_calls|intros user_pool].
  repeat calls_step.
Qed.

Lemma pool_and_others_calls : calls_at_most 3 (pool_and_others repr user_id purl).
Proof.
  unfold pool_and_others, requests_get.
  apply (@calls_bind _ _ 2 1); [apply get_user_pool_calls|intros user_pool].
  repeat calls_step.
Qed.

Lemma create_match_calls (pool_id member : json) :
  calls_at_most 1 (create_match repr murl pool_id user_id member).
Proof.
  unfold create_match, requests_post.
  apply calls_try_except; [|handler_quiet]. repeat calls_step.
Qed.

Lemma submit_all_calls (pool_id : json) (selected : list json) :
  calls_at_most (List.length selected)
    (submit_all (map (create_match repr murl pool_id user_id) selected)).
Proof.
  induction selected as [|member rest IH]; cbn [map submit_all List.length].
  - apply calls_ret.
  - apply (@calls_bind _ _ 1 (List.length rest)).
    + intros w. destruct (create_match_calls pool_id member w) as (new & E & L).
      exists new. unfold submit.
      destruct (create_match repr murl pool_id user_id member w). split; assumption.
    + intros f. apply calls_weaken with (a := List.length rest + 0); [lia|].
      apply calls_bind; [exact IH|intros fs; apply calls_ret].
Qed.

Lemma create_matches_calls (pool_id : json) (selected : list json) :
  calls_at_most (List.length selected)
    (create_matches repr murl pool_id user_id selected).
Proof.
  unfold create_matches.
  apply calls_weaken with (a := List.length selected + 0); [lia|].
  apply calls_bind; [apply submit_all_calls|]. intros futures.
  apply (@calls_bind _ _ 0 0); [apply calls_nothing; reflexivity|].
  intros completed. apply calls_silent, collect_created_sends.
Qed.

Lemma sample_loop_length {A} (k : nat) :
  forall (pool : list A) (m : nat) (w w1 : World) (selected : list A),
    sample_loop pool m k w = (Ok selected, w1) -> List.length selected = k.
Proof.
  induction k as [|k IH]; intros pool m w w1 selected; cbn [sample_loop].
  - intros [= <- _]. reflexivity.
  - unfold bind at 1. cbn [randbelow].
    destruct (nth_error pool _); [|discriminate].
    destruct (nth_error pool (m - 1)); [|discriminate].
    unfold bind. 
    match goal with
    | |- context [sample_loop ?p ?m' k ?w'] =>
        destruct (sample_loop p m' k w') as [[result|e] w2] eqn:Hloop; [|discriminate]
    end.
    intros [= <- _]. cbn. f_equal. eapply IH. eassumption.
Qed.

Lemma reject_loop_length {A} (population : list A) (n k : nat) :
  forall (chosen : list nat) (w w1 : World) (selected : list A),
    reject_loop population n chosen k w = (Ok selected, w1) -> List.length selected = k.
Proof.
  induction k as [|k IH]; intros chosen w w1 selected; cbn [reject_loop].
  - intros [= <- _]. reflexivity.
  - unfold bind at 1. cbn [draw_unselected].
    destruct (nth_error population _); [|discriminate].
    unfold bind.
    match goal with
    | |- context [reject_loop population n ?c k ?w'] =>
        destruct (reject_loop population n c k w') as [[result|e] w2] eqn:Hloop;
          [|discriminate]
    end.
    intros [= <- _]. cbn. f_equal. eapply IH. eassumption.
Qed.

Lemma random_sample_length {A} (population : list A) (k : Z) (w w1 : World)
    (selected : list A) :
  random_sample population k w = (Ok selected, w1) -> List.length selected = Z.to_nat k.
Proof.
  unfold random_sample. destruct (_ && _); [|discriminate].
  destruct (_ <=? _)%nat; [apply sample_loop_length|apply reject_loop_length].
Qed.

Lemma match_with_calls (pool_id : json) (peers : list json) :
  calls_at_most (Z.to_nat max_matches)
    (match_with repr MatchGet user_id murl pool_id max_matches peers).
Proof.
  unfold match_with. destruct peers as [|first others]; [apply calls_ret|].
  apply (@calls_bind_returned _ _
           (fun selected => List.length selected <= Z.to_nat max_matches)
           0 (Z.to_nat max_matches)).
  - apply calls_silent, sends_random_sample.
  - intros w selected w1 Hrun. apply random_sample_length in Hrun. lia.
  - intros selected Hlen.
    apply calls_weaken with (a := List.length selected); [assumption|].
    apply calls_weaken with (a := List.length selected + 0); [lia|].
    apply calls_bind; [apply create_matches_calls|]. intros created. repeat calls_step.
Qed.

(** X22. The number of requests a call of a service function sends, whatever
    is answered: at most two for the pool of a user, three for adding a
    user, three for the members of the pool, three for the update of the
    coordinates, and for match generation three and as many as
    [max_matches] allows. *)
Theorem requests_are_bounded :
  calls_at_most 2 (get_user_pool_from_service repr user_id purl)
  /\ calls_at_most 3
       (add_user_to_pool_service repr user_id location coord_x coord_y purl max_pool_size)
  /\ calls_at_most 3 (get_pool_members_from_service repr user_id purl)
  /\ calls_at_most 3
       (update_user_pool_coordinates_service repr user_id coord_x coord_y purl)
  /\ calls_at_most (3 + Z.to_nat max_matches)
       (generate_matches_for_user_service repr MatchGet user_id murl purl max_matches).
Proof.
  split; [apply get_user_pool_calls|]. split; [apply add_user_calls|].
  split; [apply get_pool_members_calls|]. split; [apply update_coordinates_calls|].
  unfold generate_matches_for_user_service.
  apply calls_try_except; [|handler_quiet].
  apply calls_bind; [apply pool_and_others_calls|]. intros resolved.
  apply match_with_calls.
Qed.

End Budget.

(** ** The listing of the matches, and the timeouts *)


(** X24. The default timeout, request by request and whatever is answered:
    every request of the eight service functions other than match
    generation carries it, and every request of match generation carries it
    but for the listing of the members of the pool. *)
Theorem requests_carry_the_timeout :
  forall (repr : json -> string) (Match : Type)
         (MatchGet : list (string * json) -> option Match)
         (user_id match_id : UUID) (murl purl location decision : string)
         (coord_x coord_y : option Q) (max_pool_size max_matches : Z),
    sends timed (get_user_pool_from_service repr user_id purl)
    /\ sends timed
         (add_user_to_pool_service repr user_id location coord_x coord_y purl
            max_pool_size)
    /\ sends timed (get_user_matches_from_service user_id murl)
    /\ sends timed (get_pool_members_from_service repr user_id purl)
    /\ sends timed (get_user_decisions_from_service repr user_id murl)
    /\ sends timed (submit_decision_for_user_match user_id match_id decision murl)
    /\ sends timed (delete_user_from_pool_service user_id purl)
    /\ sends timed
         (update_user_pool_coordinates_service repr user_id coord_x coord_y purl)
    /\ sends (fun rq => timed rq \/ untimed_members_listing purl rq)
         (generate_matches_for_user_service repr MatchGet user_id murl purl max_matches).
Proof.
  intros. repeat match goal with |- _ /\ _ => split end.
  - apply get_user_pool_timed.
  - apply add_user_to_pool_timed.
  - apply get_user_matches_timed.
  - apply get_pool_members_timed.
  - apply get_user_decisions_timed.
  - apply submit_decision_timed.
  - apply delete_user_from_pool_timed.
  - apply update_coordinates_timed.
  - apply generate_matches_timed_but_listing.
Qed.

(** ** The statements at the sample data *)

(** [get_user_pool_not_member_iff] for a lookup answered with null. *)
Lemma get_user_pool_not_member_iff_witness :
  let w := world [Answered (ok_reply JNull)] [] [] in
  let not_member := ValueError (Lit "User is not a member of any pool") in
  (fst (get_user_pool_from_service no_repr u1 "http://pools" w) = Raise not_member
   <-> truthy JNull = false)
  /\ (truthy JNull = false ->
      get_user_pool_from_service no_repr u1 "http://pools" w
      = (Raise not_member, after_call (membership_lookup_request "http://pools" u1) w)
      /\ fst (get_user_pool no_repr "http://pools" u1 w)
         = Raise (HTTPException 404 (str_exn not_member))).
Proof.
  exact (@get_user_pool_not_member_iff no_repr "http://pools" u1
           (world [Answered (ok_reply JNull)] [] []) (ok_reply JNull) [] JNull
           eq_refl eq_refl eq_refl).
Defined.

(** [get_user_pool_call_failure] for a lookup whose URL is refused, and for
    a pool that is answered with 503. *)
Lemma get_user_pool_call_failure_witness :
  (let w := world [Invalid] [] [] in
   get_user_pool_from_service no_repr u1 "pools" w
   = (Raise InvalidURL, after_call (membership_lookup_request "pools" u1) w)
   /\ fst (get_user_pool no_repr "pools" u1 w)
      = Raise (HTTPException 404 (str_exn InvalidURL)))
  /\ (let busy := status_reply 503 "" None in
      let w := world [Answered (ok_reply (JList [JDict (membership_of u1)]));
                      Answered busy] [] [] in
      let unavailable :=
        RuntimeError (Fmt "Service communication error: " (HTTPError busy)) in
      get_user_pool_from_service no_repr u1 "http://pools" w
      = (Raise unavailable,
         after_call (pool_request "http://pools" "p1")
           (after_call (membership_lookup_request "http://pools" u1) w))
      /\ fst (get_user_pool no_repr "http://pools" u1 w)
         = Raise (HTTPException 502 (str_exn unavailable))).
Proof.
  split.
  - exact (proj1 (@get_user_pool_call_failure no_repr "pools" u1
                    (world [Invalid] [] []) InvalidURL) eq_refl).
  - exact (proj1 (proj2 (@get_user_pool_call_failure no_repr "http://pools" u1
                           (world [Answered (ok_reply (JList [JDict (membership_of u1)]));
                                   Answered (status_reply 503 "" None)] [] [])
                           (HTTPError (status_reply 503 "" None))))
             (ok_reply (JList [JDict (membership_of u1)])) (membership_of u1) []
             [Answered (status_reply 503 "" None)] eq_refl eq_refl eq_refl eq_refl).
Defined.


(** [get_user_pool_missing_field] for a pool that has no name. *)
Lemma get_user_pool_missing_field_witness :
  let w := world [Answered (ok_reply (JList [JDict (membership_of u1)]));
                  Answered (ok_reply (JDict [("id", JStr "p1")]))] [] [] in
  get_user_pool_from_service no_repr u1 "http://pools" w
  = (Raise (KeyError "name"),
     after_call (pool_request "http://pools" "p1")
       (after_call (membership_lookup_request "http://pools" u1) w))
  /\ fst (get_user_pool no_repr "http://pools" u1 w)
     = Raise (HTTPException 500 (Fmt "Failed to retrieve user pool: " (KeyError "name"))).
Proof.
  exact (@get_user_pool_missing_field no_repr "http://pools" u1
           (world [Answered (ok_reply (JList [JDict (membership_of u1)]));
                   Answered (ok_reply (JDict [("id", JStr "p1")]))] [] [])
           (ok_reply (JList [JDict (membership_of u1)]))
           (ok_reply (JDict [("id", JStr "p1")])) []
           (membership_of u1) [("id", JStr "p1")] [] "name"
           eq_refl eq_refl eq_refl eq_refl eq_refl eq_refl).
Defined.

(** [pool_lookup_failure_propagates] for a lookup that gets no reply. *)
Lemma pool_lookup_failure_propagates_witness :
  let w := world [Unreachable] [] [] in
  let e := RuntimeError (Fmt "Service communication error: " TransportError) in
  let w1 := after_call (membership_lookup_request "http://pools" u1) w in
  generate_matches_for_user_service no_repr any_fields u1 "http://matches" "http://pools"
    10 w = (Raise e, w1)
  /\ get_pool_members_from_service no_repr u1 "http://pools" w = (Raise e, w1)
  /\ update_user_pool_coordinates_service no_repr u1 None None "http://pools" w
     = (Raise e, w1).
Proof.
  exact (@pool_lookup_failure_propagates no_repr _ any_fields u1 "http://matches"
           "http://pools" 10 None None (world [Unreachable] [] [])
           (after_call (membership_lookup_request "http://pools" u1)
              (world [Unreachable] [] []))
           (RuntimeError (Fmt "Service communication error: " TransportError)) eq_refl).
Defined.

(** [no_pool_id_is_not_member] for a pool whose id is the empty string. *)
Lemma no_pool_id_is_not_member_witness :
  let w := world [Answered (ok_reply (JList [JDict (membership_of u1)]));
                  Answered (ok_reply (JDict [("id", JStr ""); ("name", JStr "Nowhere")]))]
             [] [] in
  let w1 := snd (get_user_pool_from_service no_repr u1 "http://pools" w) in
  let not_member := ValueError (Lit "User is not a member of any pool") in
  let add_first :=
    ValueError (Lit "User is not a member of any pool. Add user to a pool first.") in
  generate_matches_for_user_service no_repr any_fields u1 "http://matches" "http://pools"
    10 w = (Raise add_first, w1)
  /\ get_pool_members_from_service no_repr u1 "http://pools" w = (Raise not_member, w1)
  /\ update_user_pool_coordinates_service no_repr u1 None None "http://pools" w
     = (Raise not_member, w1)
  /\ fst (generate_matches_for_user no_repr any_fields "http://pools" "http://matches" u1 w)
     = Raise (HTTPException 404 (str_exn add_first))
  /\ fst (get_user_pool_members no_repr "http://pools" u1 w)
     = Raise (HTTPException 404 (str_exn not_member))
  /\ fst (update_user_pool_coordinates no_repr "http://pools" u1 None None w)
     = Raise (HTTPException 404 (str_exn not_member)).
Proof.
  intros w w1.
  exact (@no_pool_id_is_not_member no_repr _ any_fields u1 "http://matches" "http://pools"
           10 None None w w1
           {| UserPool.pool_id := JStr "";
              UserPool.pool_name := JStr "Nowhere";
              UserPool.location := JNull;
              UserPool.member_count := JNull;
              UserPool.joined_at := JStr "2025-01-01T00:00:00";
              UserPool.user_id := JStr (str u1) |} eq_refl eq_refl).
Defined.


(** The count of [get_user_pool_members] for members answered as a str of
    one character. *)
Lemma members_count_of_text :
  fst (get_user_pool_members no_repr "http://pools" u1
         (world (found_p1 [Answered (ok_reply (JStr euro))]) [] []))
  = Ok {| UserPoolMembers.user_id := u1;
          UserPoolMembers.members_count := 1;
          UserPoolMembers.members := JStr euro |}.
Proof. reflexivity. Qed.



(** [add_user_unexpected_format] for a listing answered with an object, and
    for a pool created with a list for an answer. *)
Lemma add_user_unexpected_format_witness :
  (let pools := JDict [("detail", JStr "moved")] in
   let w := world [Answered (ok_reply pools)] [] [] in
   add_user_to_pool_service no_repr u1 "NYC" None None "http://pools" 20 w
   = (Raise (RuntimeError
               (Lit ("Unexpected response format from pools service: " ++ py_type pools))),
      after_call (listing_request "http://pools" "NYC") w))
  /\ (let w := world [Answered (ok_reply (JList [])); Answered (ok_reply (JList []))] [] [] in
      add_user_to_pool_service no_repr u1 "NYC" None None "http://pools" 20 w
      = (Raise (RuntimeError
                  (Lit ("Unexpected pool response format: " ++ py_type (JList [])))),
         after_call (creation_request "http://pools" "NYC")
           (after_call (listing_request "http://pools" "NYC") w))).
Proof.
  split.
  - apply (proj1 (@add_user_unexpected_format no_repr u1 "NYC" None None "http://pools" 20
                    (world [Answered (ok_reply (JDict [("detail", JStr "moved")]))] [] [])
                    (ok_reply (JDict [("detail", JStr "moved")])) []
                    (JDict [("detail", JStr "moved")]) eq_refl eq_refl eq_refl)).
    intros listed H. discriminate H.
  - exact (proj2 (@add_user_unexpected_format no_repr u1 "NYC" None None "http://pools" 20
                    (world [Answered (ok_reply (JList []));
                            Answered (ok_reply (JList []))] [] [])
                    (ok_reply (JList [])) [Answered (ok_reply (JList []))] (JList [])
                    eq_refl eq_refl eq_refl)
             [] (ok_reply (JList [])) [] (JList [])
             eq_refl eq_refl eq_refl eq_refl eq_refl eq_refl).
Defined.

(** [add_user_pool_without_id] for a listing of one pool that has no id. *)
Lemma add_user_pool_without_id_witness :
  let listed := [JDict [("name", JStr "Pool for NYC")]] in
  let w := world [Answered (ok_reply (JList listed))] [] [] in
  let run := add_user_to_pool_service no_repr u1 "NYC" None None "http://pools" 20 w in
  fst run
  = Raise (RuntimeError (Fmt "Missing expected field in response: " (KeyError "id")))
  /\ sent (snd run) = sent (after_call (listing_request "http://pools" "NYC") w).
Proof.
  exact (@add_user_pool_without_id no_repr u1 "NYC" None None "http://pools" 20
           (world [Answered (ok_reply (JList [JDict [("name", JStr "Pool for NYC")]]))] [] [])
           (ok_reply (JList [JDict [("name", JStr "Pool for NYC")]])) []
           [JDict [("name", JStr "Pool for NYC")]] [JDict [("name", JStr "Pool for NYC")]]
           eq_refl eq_refl eq_refl eq_refl
           [("name", JStr "Pool for NYC")] eq_refl eq_refl).
Defined.

(** [add_user_malformed_pool] for a listed pool whose member count is
    null. *)
Lemma add_user_malformed_pool_witness :
  let listed := [JDict [("id", JStr "p9"); ("member_count", JNull)]] in
  let w := world [Answered (ok_reply (JList listed))] [] [] in
  exists e,
    (e = TypeError \/ e = AttributeError)
    /\ add_user_to_pool_service no_repr u1 "NYC" None None "http://pools" 20 w
       = (Raise e, after_call (listing_request "http://pools" "NYC") w).
Proof.
  exact (@add_user_malformed_pool no_repr u1 "NYC" None None "http://pools" 20
           (world [Answered (ok_reply (JList [JDict [("id", JStr "p9");
                                                    ("member_count", JNull)]]))] [] [])
           (ok_reply (JList [JDict [("id", JStr "p9"); ("member_count", JNull)]])) []
           [JDict [("id", JStr "p9"); ("member_count", JNull)]]
           eq_refl eq_refl eq_refl).
Defined.


(** [generate_negative_max] at the scenario, for -1. *)
Lemma generate_negative_max_witness :
  let w := world scenario [] [] in
  let w2 := snd (pool_and_others no_repr u1 "http://pools" w) in
  generate_matches_for_user_service no_repr any_fields u1 "http://matches" "http://pools"
    (-1) w
  = (Raise (ValueError (Lit "Sample larger than population or is negative")), w2).
Proof.
  intros w w2.
  apply (@generate_negative_max no_repr _ any_fields u1 "http://matches" "http://pools"
           (-1)%Z w w2 (JStr "p1") [JDict (membership_of u2); JDict (membership_of u3)]).
  - reflexivity.
  - discriminate.
  - reflexivity.
Defined.




